(** * Browser session manager of xiaohongshu-mcp: a shallow embedding

    The Go package [browser] obtains a controllable Chrome: it locates a
    system binary, attaches to an already running instance, or launches
    one against an automation profile, and falls back to the bundled
    browser of the [headless_browser] library.  The package talks to the
    operating system (executables, files, HTTP, child processes) and logs
    through logrus; here this becomes a state-and-abort monad over an
    explicit [World], parameterised by an [Env] of facts the program can
    only observe. *)

From stdpp Require Import base gmap strings list.

Open Scope string_scope.

(** ** Data *)

Abbreviation bytes := (list Byte.byte).

(** A file path as its components: [filepath.Join a "x" "y"] is
    [a ++ ["x"; "y"]], and the empty Go string is [[]] (Join drops empty
    elements). *)
Abbreviation path := (list string).

Inductive error := ErrNotExist | ErrOther.

Inductive result (A : Type) :=
  | Ok (a : A)
  | Err (e : error).
Arguments Ok {A} a.
Arguments Err {A} e.

(** [os.IsNotExist] *)
Definition os_IsNotExist {A} (r : result A) : bool :=
  match r with Err ErrNotExist => true | _ => false end.

Inductive Level := Debug | Info | Warn | Fatal.

#[global] Instance Level_eq_dec : EqDecision Level.
Proof. solve_decision. Defined.

Record LogEntry := Log { lvl : Level; msg : string }.

(** [proto.NetworkCookie], reduced to the fields that identify a cookie. *)
Record Cookie := MkCookie {
  c_name : string; c_value : string; c_domain : string; c_path : string }.

(** A control endpoint: a debugging URL somebody else opened, or the URL
    that [MustLaunch] returned for the n-th process this program spawned. *)
Inductive Endpoint := AtURL (url : string) | OfProc (pid : nat).

#[global] Instance Endpoint_eq_dec : EqDecision Endpoint.
Proof. solve_decision. Defined.

(** [launcher.Launcher]: rod keeps a flag map; the binary, the headless
    switch and the user data directory are the flags the package sets
    through dedicated methods. *)
Record Launcher := MkLauncher {
  l_bin : string;
  l_headless : bool;
  l_user_data_dir : path;
  l_flags : gmap string (list string) }.

Definition launcher_New : Launcher :=
  {| l_bin := EmptyString; l_headless := true; l_user_data_dir := []; l_flags := ∅ |}.
Definition Bin (p : string) (l : Launcher) : Launcher :=
  {| l_bin := p; l_headless := l_headless l;
     l_user_data_dir := l_user_data_dir l; l_flags := l_flags l |}.
Definition Headless (b : bool) (l : Launcher) : Launcher :=
  {| l_bin := l_bin l; l_headless := b;
     l_user_data_dir := l_user_data_dir l; l_flags := l_flags l |}.
Definition UserDataDir (d : path) (l : Launcher) : Launcher :=
  {| l_bin := l_bin l; l_headless := l_headless l;
     l_user_data_dir := d; l_flags := l_flags l |}.
Definition Set_ (name : string) (vals : list string) (l : Launcher) : Launcher :=
  {| l_bin := l_bin l; l_headless := l_headless l;
     l_user_data_dir := l_user_data_dir l; l_flags := <[name := vals]> (l_flags l) |}.

(** A process this program spawned: the launcher it was started from and
    (ghost) the files on disk at the moment it started. *)
Record Proc := MkProc {
  p_launcher : Launcher;
  p_files : gmap path bytes }.

(** [rod.Browser] *)
Record RodBrowser := MkRod { control : Endpoint }.

(** [CustomBrowser] and [ChromeBrowser]: a [*rod.Browser] and a
    [*launcher.Launcher] that may be nil. *)
Record CustomBrowser := MkCustom {
  cb_browser : RodBrowser; cb_launcher : option Launcher }.
Record ChromeBrowser := MkChrome {
  browser : RodBrowser; launcher : option Launcher }.

(** [headless_browser.Browser] *)
Record HBrowser := MkHB { hb_browser : RodBrowser; hb_launcher : Launcher }.

(** [Config] *)
Record Config := MkConfig {
  cfg_Headless : bool;
  cfg_UserAgent : string;
  cfg_Cookies : string;
  cfg_UseSystemChrome : bool }.

(** ** The world *)

Inductive HttpResult := HttpErr | HttpResp (status : Z).

(** [fs.FileMode]: the directory bit and the permission bits. *)
Record FileMode := MkMode { fm_dir : bool; fm_perm : Z }.

Inductive CookieFile :=
  | CookieMissing | CookieUnreadable | CookieContent (data : bytes).

(** What the program observes but does not change. *)
Class Env := MkEnv {
  file_mode : string -> option FileMode; (* os.Stat of an install path *)
  http_get : string -> HttpResult;     (* client.Get *)
  rod_connect : Endpoint -> bool;      (* the control connection opens *)
  launch_ok : Launcher -> bool;        (* the process starts and prints its URL *)
  set_cookies_ok : Endpoint -> bool;   (* Storage.setCookies succeeds *)
  user_home_dir : option path;         (* os.UserHomeDir *)
  cookie_file : CookieFile;            (* the file at cookies.GetCookiesFilePath() *)
  json_unmarshal : bytes -> option (list Cookie);
  mkdir_fault : path -> bool;
  stat_fault : path -> bool;
  open_fault : path -> bool;
  create_fault : path -> bool;
  copy_fault : path -> option nat      (* ReadFrom fails after n bytes *)
}.

(** What the program changes. *)
Record World := MkWorld {
  files : gmap path bytes;
  dirs : gset path;
  procs : list Proc;                        (* spawned, oldest first *)
  conns : list Endpoint;                    (* open control connections *)
  bodies : list string;                     (* HTTP response bodies still open *)
  requests : list (string * Z);             (* GETs issued: URL and timeout (ns) *)
  injected : list (Endpoint * list Cookie); (* SetCookies calls *)
  log : list LogEntry }.

(** ** The monad: state, plus the two ways a Go program stops early *)

Inductive Outcome (A : Type) :=
  | Done (a : A)
  | Exited       (* logrus.Fatal: the entry is written, then os.Exit(1) *)
  | Panicked.    (* a Must* helper panicked *)
Arguments Done {A} a.
Arguments Exited {A}.
Arguments Panicked {A}.

Definition M (A : Type) : Type := World -> Outcome A * World.

Definition ret {A} (a : A) : M A := fun w => (Done a, w).
Definition bind {A B} (m : M A) (k : A -> M B) : M B :=
  fun w => match m w with
           | (Done a, w') => k a w'
           | (Exited, w') => (Exited, w')
           | (Panicked, w') => (Panicked, w')
           end.

Declare Scope go_scope.
Delimit Scope go_scope with go.
Notation "x <- m ;; k" := (bind m (fun x => k))
  (at level 100, m at next level, right associativity) : go_scope.
Notation "m ;; k" := (bind m (fun _ => k))
  (at level 100, right associativity) : go_scope.
Open Scope go_scope.

Definition outcome {A} (r : Outcome A * World) : Outcome A := fst r.
Definition world {A} (r : Outcome A * World) : World := snd r.

Definition set_log (w : World) (l : list LogEntry) : World :=
  {| files := files w; dirs := dirs w; procs := procs w; conns := conns w;
     bodies := bodies w; requests := requests w; injected := injected w; log := l |}.
Definition set_fs (w : World) (f : gmap path bytes) (d : gset path) : World :=
  {| files := f; dirs := d; procs := procs w; conns := conns w;
     bodies := bodies w; requests := requests w; injected := injected w; log := log w |}.
Definition set_procs (w : World) (p : list Proc) : World :=
  {| files := files w; dirs := dirs w; procs := p; conns := conns w;
     bodies := bodies w; requests := requests w; injected := injected w; log := log w |}.
Definition set_conns (w : World) (c : list Endpoint) : World :=
  {| files := files w; dirs := dirs w; procs := procs w; conns := c;
     bodies := bodies w; requests := requests w; injected := injected w; log := log w |}.
Definition set_http (w : World) (b : list string) (r : list (string * Z)) : World :=
  {| files := files w; dirs := dirs w; procs := procs w; conns := conns w;
     bodies := b; requests := r; injected := injected w; log := log w |}.
Definition set_injected (w : World) (i : list (Endpoint * list Cookie)) : World :=
  {| files := files w; dirs := dirs w; procs := procs w; conns := conns w;
     bodies := bodies w; requests := requests w; injected := i; log := log w |}.

(** *** logrus *)

Definition logrus (l : Level) (m : string) : M unit :=
  fun w => (Done tt, set_log w (log w ++ [Log l m])).
Definition logrus_Debugf := logrus Debug.
Definition logrus_Info := logrus Info.
Definition logrus_Infof := logrus Info.
Definition logrus_Warn := logrus Warn.
Definition logrus_Warnf := logrus Warn.
Definition logrus_Fatal (m : string) : M unit :=
  fun w => (Exited, set_log w (log w ++ [Log Fatal m])).

(** ** The operating system and the libraries the package calls

    These are not code of the package: [os], [os/exec], [net/http],
    [encoding/json], go-rod and its launcher.  Each is modelled by what
    its documentation says it does to the world above. *)

Section System.
Context {env : Env}.

Definition panic {A} : M A := fun w => (Panicked, w).

(** [exec.LookPath] on a path that contains a slash (every candidate
    does): the file exists, is not a directory and has an execute bit,
    [mode.Perm()&0111 != 0]. *)
Definition executable (p : string) : bool :=
  match file_mode p with
  | Some m => negb (fm_dir m) && negb (Z.land (fm_perm m) 73 =? 0)%Z
  | None => false
  end.
Definition exec_LookPath (p : string) : M (result string) :=
  ret (if executable p then Ok p
       else match file_mode p with None => Err ErrNotExist | Some _ => Err ErrOther end).

(** [launcher.MustLaunch] *)
Definition MustLaunch (l : Launcher) : M Endpoint := fun w =>
  if launch_ok l
  then (Done (OfProc (length (procs w))),
        set_procs w (procs w ++ [MkProc l (files w)]))
  else (Panicked, w).

(** [rod.New().ControlURL(u).Connect()] and [MustConnect] *)
Definition Connect (ep : Endpoint) : M bool := fun w =>
  if rod_connect ep then (Done true, set_conns w (conns w ++ [ep]))
  else (Done false, w).
Definition MustConnect (ep : Endpoint) : M RodBrowser :=
  ok <- Connect ep ;;
  if ok : bool then ret (MkRod ep) else panic.

(** [browser.MustSetCookies] *)
Definition MustSetCookies (b : RodBrowser) (cs : list Cookie) : M unit := fun w =>
  if set_cookies_ok (control b)
  then (Done tt, set_injected w (injected w ++ [(control b, cs)]))
  else (Panicked, w).

(** [client.Get] with the client's timeout, and [resp.Body.Close] *)
Definition client_Get (timeout : Z) (url : string) : M HttpResult := fun w =>
  match http_get url with
  | HttpErr => (Done HttpErr, set_http w (bodies w) (requests w ++ [(url, timeout)]))
  | HttpResp s =>
      (Done (HttpResp s), set_http w (bodies w ++ [url]) (requests w ++ [(url, timeout)]))
  end.
Definition Body_Close (url : string) : M unit := fun w =>
  (Done tt, set_http w (filter (fun u => u ≠ url) (bodies w)) (requests w)).

(** [os.UserHomeDir] *)
Definition os_UserHomeDir : M (option path) := ret user_home_dir.

(** The non-empty prefixes of a path, shortest first. *)
Definition prefixes (p : path) : list path :=
  map (fun n => take n p) (seq 1 (length p)).
Definition parent (p : path) : path := take (length p - 1) p.

Definition is_file (w : World) (p : path) : bool :=
  bool_decide (is_Some (files w !! p)).
Definition is_dir (w : World) (p : path) : bool :=
  bool_decide (p ∈ dirs w).

(** [os.MkdirAll]: creates the directory and its missing parents; an
    existing directory is not an error, a file in the way is. *)
Definition os_MkdirAll (p : path) : M (result unit) := fun w =>
  match p with
  | [] => (Done (Err ErrNotExist), w)
  | _ =>
    if mkdir_fault p then (Done (Err ErrOther), w)
    else if existsb (is_file w) (prefixes p) then (Done (Err ErrOther), w)
    else (Done (Ok tt), set_fs w (files w) (dirs w ∪ list_to_set (prefixes p)))
  end.

(** [os.Stat] *)
Definition os_Stat (p : path) : M (result unit) := fun w =>
  if stat_fault p then (Done (Err ErrOther), w)
  else if is_file w p || is_dir w p then (Done (Ok tt), w)
  else (Done (Err ErrNotExist), w).

(** [os.Open]: the handle is the path of the opened file. *)
Definition os_Open (p : path) : M (result path) := fun w =>
  if open_fault p then (Done (Err ErrOther), w)
  else if is_file w p || is_dir w p then (Done (Ok p), w)
  else (Done (Err ErrNotExist), w).

(** [os.Create]: creates the file or truncates it. *)
Definition os_Create (p : path) : M (result path) := fun w =>
  if create_fault p then (Done (Err ErrOther), w)
  else if is_dir w p then (Done (Err ErrOther), w)
  else if bool_decide (parent p = []) || is_dir w (parent p)
  then (Done (Ok p), set_fs w (<[p := []]> (files w)) (dirs w))
  else (Done (Err ErrNotExist), w).

(** [destFile.ReadFrom(sourceFile)]: reads the source to its end and
    writes what it read; reading a directory fails. *)
Definition File_ReadFrom (dst src : path) : M (result nat) := fun w =>
  match files w !! src with
  | None => (Done (Err ErrOther), w)
  | Some data =>
      match copy_fault dst with
      | Some n => (Done (Err ErrOther), set_fs w (<[dst := take n data]> (files w)) (dirs w))
      | None => (Done (Ok (length data)), set_fs w (<[dst := data]> (files w)) (dirs w))
      end
  end.

(** [json.Unmarshal(data, &cookieData)] *)
Definition json_Unmarshal (data : bytes) : option (list Cookie) := json_unmarshal data.

(** Modelled from the spec: the cookie store's [LoadCookies] of package
    [cookies], whose source is not part of the files at hand.  It reads
    the file at the one fixed path and parses it as a JSON array of
    cookie records; a missing, an unreadable and a malformed file are
    each an error.  Otherwise the call sites receive the bytes read,
    which they parse once more. *)
Definition LoadCookies : M (result bytes) :=
  ret (match cookie_file with
       | CookieMissing => Err ErrNotExist
       | CookieUnreadable => Err ErrOther
       | CookieContent data =>
           match json_unmarshal data with
           | Some _ => Ok data
           | None => Err ErrOther
           end
       end).

(** *** The headless_browser library

    [headless_browser.New] builds its configuration from the options,
    launches the launcher's default browser with that headless mode and
    [--no-sandbox], connects, and sets the configured cookies. *)
Inductive HBOption := WithHeadless (b : bool) | WithCookies (c : bytes).

Record HBConfig := MkHBConfig { hbc_Headless : bool; hbc_Cookies : bytes }.

Definition apply_option (c : HBConfig) (o : HBOption) : HBConfig :=
  match o with
  | WithHeadless b => {| hbc_Headless := b; hbc_Cookies := hbc_Cookies c |}
  | WithCookies k => {| hbc_Headless := hbc_Headless c; hbc_Cookies := k |}
  end.

Definition headless_browser_New (opts : list HBOption) : M HBrowser :=
  let cfg := fold_left apply_option opts (MkHBConfig true []) in
  let l := Set_ "--no-sandbox" [] (Headless (hbc_Headless cfg) launcher_New) in
  url <- MustLaunch l ;;
  b <- MustConnect url ;;
  (match hbc_Cookies cfg with
   | [] => ret tt
   | data =>
       match json_Unmarshal data with
       | Some cs => MustSetCookies b cs
       | None => logrus_Warnf "failed to unmarshal cookies: %v"
       end
   end) ;;
  ret (MkHB b l).

End System.

(** ** browser.go *)

Section Browser.
Context {env : Env}.

Definition NewConfig (headless : bool) : Config :=
  {| cfg_Headless := headless;
     cfg_UserAgent := "Mozilla/5.0 (Macintosh; Intel Mac OS X 10_15_7) AppleWebKit/537.36 (KHTML, like Gecko) Chrome/124.0.0.0 Safari/537.36";
     cfg_Cookies := EmptyString;
     cfg_UseSystemChrome := true |}.

Definition CustomBrowser_Close (cb : CustomBrowser) : M unit :=
  logrus_Info "CustomBrowser Close() called but browser will remain open".

Definition chromePaths : list string :=
  [ "/Applications/Google Chrome.app/Contents/MacOS/Google Chrome";
    "/Applications/Google Chrome Canary.app/Contents/MacOS/Google Chrome Canary";
    "/Applications/Chromium.app/Contents/MacOS/Chromium" ].

(** The [for _, path := range chromePaths] loop of [findChromePath]. *)
Fixpoint findChromePath_range (paths : list string) : M string :=
  match paths with
  | [] => ret EmptyString
  | path :: rest =>
      r <- exec_LookPath path ;;
      match r with
      | Ok _ => ret path
      | Err _ => findChromePath_range rest
      end
  end.

Definition findChromePath : M string := findChromePath_range chromePaths.

Definition isSystemChromeAvailable : M bool :=
  p <- findChromePath ;;
  ret (negb (String.eqb p EmptyString)).

Definition createCompatibleBrowser (cb : CustomBrowser) : M HBrowser :=
  logrus_Info "Chrome browser launched successfully, creating compatible wrapper" ;;
  headless_browser_New [WithHeadless false].

Definition NewBrowserWithConfig (cfg : Config) : M HBrowser :=
  avail <- (if cfg_UseSystemChrome cfg then isSystemChromeAvailable else ret false) ;;
  if avail : bool then
    logrus_Info "Using system Chrome" ;;
    let l := launcher_New in
    chromePath <- findChromePath ;;
    l <- (if negb (String.eqb chromePath EmptyString)
          then logrus_Infof "Found Chrome at: %s" ;; ret (Bin chromePath l)
          else ret l) ;;
    let l := Set_ "--no-sandbox" [] (Headless (cfg_Headless cfg) l) in
    url <- MustLaunch l ;;
    browser <- MustConnect url ;;
    (r <- LoadCookies ;;
     match r with
     | Ok data =>
         match json_Unmarshal data with
         | Some cookieData =>
             MustSetCookies browser cookieData ;;
             logrus_Debugf "loaded %d cookies from file successfully"
         | None => ret tt
         end
     | Err _ => logrus_Warnf "failed to load cookies: %v"
     end) ;;
    let customBrowser := MkCustom browser (Some l) in
    createCompatibleBrowser customBrowser
  else
    (if cfg_UseSystemChrome cfg
     then logrus_Warn "System Chrome not found or not available, falling back to default Chromium"
     else ret tt) ;;
    let opts := [WithHeadless (cfg_Headless cfg)] in
    opts <- (r <- LoadCookies ;;
             match r with
             | Ok data =>
                 logrus_Debugf "loaded cookies from file successfully" ;;
                 ret (opts ++ [WithCookies data])%list
             | Err _ =>
                 logrus_Warnf "failed to load cookies: %v" ;; ret opts
             end) ;;
    headless_browser_New opts.

Definition NewBrowser (headless : bool) : M HBrowser :=
  NewBrowserWithConfig (NewConfig headless).

End Browser.

(** ** chrome_browser.go, the version that attaches to a running Chrome *)

Module ChromeAttach.
Section Attach.
Context {env : Env}.

Definition Second : Z := 1000000000.

Definition ports : list string := ["9222"; "9223"; "9224"].

(** The [for _, port := range ports] loop of [connectToExistingChrome];
    [None] is the error the function returns after the loop. *)
Fixpoint connect_range (ports : list string) : M (option RodBrowser) :=
  match ports with
  | [] => ret None
  | port :: rest =>
      let url := "http://localhost:" +:+ port in
      let timeout := (2 * Second)%Z in
      resp <- client_Get timeout (url +:+ "/json/version") ;;
      match resp with
      | HttpErr => connect_range rest
      | HttpResp StatusCode =>
          Body_Close (url +:+ "/json/version") ;;
          if (StatusCode =? 200)%Z then
            ok <- Connect (AtURL url) ;;
            if ok : bool then ret (Some (MkRod (AtURL url)))
            else connect_range rest
          else connect_range rest
      end
  end.

Definition connectToExistingChrome : M (option RodBrowser) := connect_range ports.

Definition NewChromeBrowser (headless : bool) : M (option ChromeBrowser) :=
  r <- connectToExistingChrome ;;
  match r with
  | None =>
      logrus_Fatal "Cannot connect to your current Chrome. Please enable remote debugging" ;;
      ret None
  | Some browser =>
      logrus_Info "Connected to your current Chrome - will create new tab with your current profile" ;;
      ret (Some {| browser := browser; launcher := None |})
  end.

(** [NewChromeVisibleBrowser] of browser.go, over this version. *)
Definition NewChromeVisibleBrowser : M (option ChromeBrowser) :=
  NewChromeBrowser false.

Definition Close (cb : ChromeBrowser) : M unit :=
  logrus_Info "Close() called but browser will remain open".

Definition getUserChromeDataDir : M path :=
  h <- os_UserHomeDir ;;
  match h with
  | None => logrus_Warnf "Failed to get user home directory: %v" ;; ret []
  | Some homeDir =>
      let chromeProfileDir :=
        (homeDir ++ ["Library"; "Application Support"; "Google"; "Chrome"; "Default"])%list in
      logrus_Infof "Using Chrome default profile directory: %s" ;;
      ret chromeProfileDir
  end.

Definition loadCookiesForBrowser (browser : RodBrowser) : M unit :=
  r <- LoadCookies ;;
  match r with
  | Ok data =>
      match json_Unmarshal data with
      | Some cookieData =>
          MustSetCookies browser cookieData ;;
          logrus_Debugf "loaded %d cookies from file successfully"
      | None => ret tt
      end
  | Err _ => logrus_Warnf "failed to load cookies: %v"
  end.

Definition getAutomationChromeDataDir : M path :=
  h <- os_UserHomeDir ;;
  match h with
  | None => logrus_Warnf "Failed to get user home directory: %v" ;; ret []
  | Some homeDir =>
      let chromeDataDir :=
        (homeDir ++ ["Library"; "Application Support"; "Google"; "Chrome-Automation"])%list in
      r <- os_MkdirAll chromeDataDir ;;
      (match r with
       | Err _ => logrus_Warnf "Failed to create Chrome automation directory: %v"
       | Ok _ => ret tt
       end) ;;
      logrus_Infof "Using Chrome automation data directory: %s" ;;
      ret chromeDataDir
  end.

Definition copyFile (src dst : path) : M (result unit) :=
  r <- os_Open src ;;
  match r with
  | Err e => ret (Err e)
  | Ok sourceFile =>
      r <- os_Create dst ;;
      match r with
      | Err e => ret (Err e)
      | Ok destFile =>
          r <- File_ReadFrom destFile sourceFile ;;
          match r with
          | Err e => ret (Err e)
          | Ok _ => ret (Ok tt)
          end
      end
  end.

Definition copyUserCookiesToAutomation (automationDir : path) : M unit :=
  userChromeDir <- getUserChromeDataDir ;;
  let userCookiesPath := (userChromeDir ++ ["Default"; "Cookies"])%list in
  let automationCookiesDir := (automationDir ++ ["Default"])%list in
  let automationCookiesPath := (automationCookiesDir ++ ["Cookies"])%list in
  r <- os_MkdirAll automationCookiesDir ;;
  match r with
  | Err _ => logrus_Warnf "Failed to create automation Default directory: %v"
  | Ok _ =>
      st <- os_Stat userCookiesPath ;;
      if os_IsNotExist st then logrus_Info "No user cookies file found to copy"
      else
        r <- copyFile userCookiesPath automationCookiesPath ;;
        match r with
        | Err _ => logrus_Warnf "Failed to copy user cookies: %v"
        | Ok _ => logrus_Info "Successfully copied user cookies to automation profile"
        end
  end.

End Attach.
End ChromeAttach.

(** ** chrome_browser.go, the version that launches Chrome on an
    automation profile *)

Module ChromeLaunch.
Section Launch.
Context {env : Env}.

Definition Close (cb : ChromeBrowser) : M unit :=
  logrus_Info "Close() called but browser will remain open".

Definition getUserChromeDataDir : M path :=
  h <- os_UserHomeDir ;;
  match h with
  | None => logrus_Warnf "Failed to get user home directory: %v" ;; ret []
  | Some homeDir =>
      let chromeDataDir :=
        (homeDir ++ ["Library"; "Application Support"; "Google"; "Chrome"])%list in
      logrus_Infof "Using Chrome user data directory: %s" ;;
      ret chromeDataDir
  end.

Definition loadCookiesForBrowser (browser : RodBrowser) : M unit :=
  r <- LoadCookies ;;
  match r with
  | Ok data =>
      match json_Unmarshal data with
      | Some cookieData =>
          MustSetCookies browser cookieData ;;
          logrus_Debugf "loaded %d cookies from file successfully"
      | None => ret tt
      end
  | Err _ => logrus_Warnf "failed to load cookies: %v"
  end.

Definition getAutomationChromeDataDir : M path :=
  h <- os_UserHomeDir ;;
  match h with
  | None => logrus_Warnf "Failed to get user home directory: %v" ;; ret []
  | Some homeDir =>
      let chromeDataDir :=
        (homeDir ++ ["Library"; "Application Support"; "Google"; "Chrome-Automation"])%list in
      r <- os_MkdirAll chromeDataDir ;;
      (match r with
       | Err _ => logrus_Warnf "Failed to create Chrome automation directory: %v"
       | Ok _ => ret tt
       end) ;;
      logrus_Infof "Using Chrome automation data directory: %s" ;;
      ret chromeDataDir
  end.

Definition copyFile (src dst : path) : M (result unit) :=
  r <- os_Open src ;;
  match r with
  | Err e => ret (Err e)
  | Ok sourceFile =>
      r <- os_Create dst ;;
      match r with
      | Err e => ret (Err e)
      | Ok destFile =>
          r <- File_ReadFrom destFile sourceFile ;;
          match r with
          | Err e => ret (Err e)
          | Ok _ => ret (Ok tt)
          end
      end
  end.

Definition copyUserCookiesToAutomation (automationDir : path) : M unit :=
  userChromeDir <- getUserChromeDataDir ;;
  let userCookiesPath := (userChromeDir ++ ["Default"; "Cookies"])%list in
  let automationCookiesDir := (automationDir ++ ["Default"])%list in
  let automationCookiesPath := (automationCookiesDir ++ ["Cookies"])%list in
  r <- os_MkdirAll automationCookiesDir ;;
  match r with
  | Err _ => logrus_Warnf "Failed to create automation Default directory: %v"
  | Ok _ =>
      st <- os_Stat userCookiesPath ;;
      if os_IsNotExist st then logrus_Info "No user cookies file found to copy"
      else
        r <- copyFile userCookiesPath automationCookiesPath ;;
        match r with
        | Err _ => logrus_Warnf "Failed to copy user cookies: %v"
        | Ok _ => logrus_Info "Successfully copied user cookies to automation profile"
        end
  end.

Definition NewChromeBrowser (headless : bool) : M (option ChromeBrowser) :=
  chromePath <- findChromePath ;;
  if String.eqb chromePath EmptyString then
    logrus_Fatal "System Chrome not found" ;;
    ret None
  else
    logrus_Infof "Starting Chrome from: %s" ;;
    userDataDir <- getAutomationChromeDataDir ;;
    copyUserCookiesToAutomation userDataDir ;;
    let l :=
      Set_ "--remote-debugging-port" ["0"]
        (Set_ "--disable-features" ["VizDisplayCompositor"]
           (Set_ "--no-sandbox" []
              (UserDataDir userDataDir
                 (Headless headless
                    (Bin chromePath launcher_New))))) in
    url <- MustLaunch l ;;
    logrus_Infof "Chrome launched at: %s" ;;
    browser <- MustConnect url ;;
    loadCookiesForBrowser browser ;;
    ret (Some {| browser := browser; launcher := Some l |}).

(** [NewChromeVisibleBrowser] of browser.go, over this version. *)
Definition NewChromeVisibleBrowser : M (option ChromeBrowser) :=
  NewChromeBrowser false.

End Launch.
End ChromeLaunch.

(** ** Vocabulary of the statements *)

Section Vocabulary.
Context {env : Env}.

(** The two URLs [connectToExistingChrome] builds for a port. *)
Definition control_url (port : string) : string := "http://localhost:" +:+ port.
Definition version_url (port : string) : string := control_url port +:+ "/json/version".

(** A port the connector can attach to: the version request is answered
    with status 200 and the control connection opens. *)
Definition attachable (port : string) : bool :=
  match http_get (version_url port) with
  | HttpResp s => (s =? 200)%Z && rod_connect (AtURL (control_url port))
  | HttpErr => false
  end.

(** The request the connector issues for a port. *)
Definition probe (port : string) : string * Z :=
  (version_url port, (2 * ChromeAttach.Second)%Z).

(** Probing touches nothing but the HTTP bookkeeping and the control
    connections, and leaves no response body open that was not open
    before. *)
Definition probing_frame (w w1 : World) : Prop :=
  procs w1 = procs w ∧ files w1 = files w ∧ dirs w1 = dirs w ∧
  log w1 = log w ∧ injected w1 = injected w ∧
  ∀ u, u ∈ bodies w1 -> u ∈ bodies w.

(** The launcher [NewBrowserWithConfig] builds for the system Chrome, and
    the one [headless_browser.New] builds for the bundled browser. *)
Definition system_launcher (cfg : Config) (chromePath : string) : Launcher :=
  Set_ "--no-sandbox" [] (Headless (cfg_Headless cfg) (Bin chromePath launcher_New)).
Definition default_launcher (headless : bool) : Launcher :=
  Set_ "--no-sandbox" [] (Headless headless launcher_New).

(** The cookies the cookie file yields, if it can be read and parsed. *)
Definition stored_cookies : option (list Cookie) :=
  match cookie_file with
  | CookieContent data => json_unmarshal data
  | _ => None
  end.

(** No cookie can be taken from the cookie file: it is missing, it is
    unreadable, or its content is not the JSON of a cookie array. *)
Definition cookie_file_unusable : Prop :=
  match cookie_file with
  | CookieContent data => json_unmarshal data = None
  | _ => True
  end.

(** The cookies [headless_browser.New] takes from its [WithCookies]
    option. *)
Definition library_cookies (data : bytes) : option (list Cookie) :=
  match data with
  | [] => None
  | _ => json_unmarshal data
  end.

Definition library_log (data : bytes) : list LogEntry :=
  match data with
  | [] => []
  | _ => match json_unmarshal data with
         | Some _ => []
         | None => [Log Warn "failed to unmarshal cookies: %v"]
         end
  end.

Definition hb_config (opts : list HBOption) : HBConfig :=
  fold_left apply_option opts (MkHBConfig true []).

(** What the cookie-loading step writes to the log. *)
Definition cookie_log : list LogEntry :=
  match cookie_file with
  | CookieContent data =>
      match json_unmarshal data with
      | Some _ => [Log Debug "loaded %d cookies from file successfully"]
      | None => [Log Warn "failed to load cookies: %v"]
      end
  | _ => [Log Warn "failed to load cookies: %v"]
  end.

(** The path [findChromePath] returns. *)
Definition located_chrome : string :=
  default EmptyString (head (filter (fun p => executable p = true) chromePaths)).

(** The cookies the default-fallback branch hands to the library and
    the library injects, and what that branch logs about cookies. *)
Definition fallback_cookies : option (list Cookie) :=
  match cookie_file with
  | CookieContent data => library_cookies data
  | _ => None
  end.
Definition fallback_cookie_log : list LogEntry :=
  match cookie_file with
  | CookieContent data =>
      match json_unmarshal data with
      | Some _ => Log Debug "loaded cookies from file successfully" :: library_log data
      | None => [Log Warn "failed to load cookies: %v"]
      end
  | _ => [Log Warn "failed to load cookies: %v"]
  end.

(** The options the default-fallback branch passes to the library. *)
Definition fallback_opts (cfg : Config) : list HBOption :=
  match cookie_file with
  | CookieContent data =>
      match json_unmarshal data with
      | Some _ => [WithHeadless (cfg_Headless cfg); WithCookies data]
      | None => [WithHeadless (cfg_Headless cfg)]
      end
  | _ => [WithHeadless (cfg_Headless cfg)]
  end.

(** The bundled browser of the default-fallback branch starts, its
    control connection opens, and it accepts the cookies handed to it. *)
Definition fallback_session_ok (cfg : Config) (w : World) : bool :=
  launch_ok (default_launcher (cfg_Headless cfg)) &&
  rod_connect (OfProc (length (procs w))) &&
  match fallback_cookies with
  | Some _ => set_cookies_ok (OfProc (length (procs w)))
  | None => true
  end.

(** The directories and files of the isolated launch, as
    [getUserChromeDataDir] and [getAutomationChromeDataDir] of the
    launching version compute them ([[]] when the home directory is not
    known), and as [copyUserCookiesToAutomation] joins them. *)
Definition user_chrome_dir : path :=
  match user_home_dir with
  | Some homeDir => (homeDir ++ ["Library"; "Application Support"; "Google"; "Chrome"])%list
  | None => []
  end.
Definition automation_dir : path :=
  match user_home_dir with
  | Some homeDir =>
      (homeDir ++ ["Library"; "Application Support"; "Google"; "Chrome-Automation"])%list
  | None => []
  end.
Definition user_cookies_path : path := (user_chrome_dir ++ ["Default"; "Cookies"])%list.
Definition automation_cookies_dir : path := (automation_dir ++ ["Default"])%list.
Definition automation_cookies_path : path := (automation_cookies_dir ++ ["Cookies"])%list.

(** [os.MkdirAll p] succeeds in [w]. *)
Definition mkdir_ok (w : World) (p : path) : bool :=
  negb (mkdir_fault p) && negb (existsb (is_file w) (prefixes p)).

(** No step of the cookie copy is hindered: the [Default] directory can
    be made, the user's database opened, the automation database created
    and written to its end. *)
Definition copy_unhindered (w : World) : bool :=
  mkdir_ok w automation_cookies_dir &&
  negb (open_fault user_cookies_path) &&
  negb (create_fault automation_cookies_path) &&
  negb (is_dir w automation_cookies_path) &&
  bool_decide (copy_fault automation_cookies_path = None).

(** The copy gets as far as creating, and so truncating, the automation
    database: the [Default] directory can be made, something is at the
    user's path, the source opens and the destination can be created. *)
Definition copy_truncates (w : World) : bool :=
  mkdir_ok w automation_cookies_dir &&
  (is_file w user_cookies_path || is_dir w user_cookies_path) &&
  negb (open_fault user_cookies_path) &&
  negb (create_fault automation_cookies_path) &&
  negb (is_dir w automation_cookies_path).

(** What the copy then writes: what is read from the source once the
    destination is truncated, up to where the write breaks off. *)
Definition copy_writes (w : World) : bytes :=
  match <[automation_cookies_path := []]> (files w) !! user_cookies_path with
  | Some data =>
      match copy_fault automation_cookies_path with
      | Some n => take n data
      | None => data
      end
  | None => []
  end.

(** The automation profile's cookie database after provisioning. *)
Definition provisioned_cookies (w : World) : option bytes :=
  if copy_truncates w then Some (copy_writes w)
  else files w !! automation_cookies_path.

(** The version request of a port is answered with a 2xx status. *)
Definition answers_2xx (port : string) : bool :=
  match http_get (version_url port) with
  | HttpResp s => (200 <=? s)%Z && (s <? 300)%Z
  | HttpErr => false
  end.

(** [os.Stat] reports that the user has no cookie database. *)
Definition user_cookies_absent (w : World) : bool :=
  negb (stat_fault user_cookies_path) &&
  negb (is_file w user_cookies_path || is_dir w user_cookies_path).

(** The provisioning step of the isolated launch: the two statements of
    [NewChromeBrowser] that prepare the automation profile. *)
Definition provision : M unit :=
  userDataDir <- ChromeLaunch.getAutomationChromeDataDir ;;
  ChromeLaunch.copyUserCookiesToAutomation userDataDir.

(** The launcher of the isolated launch. *)
Definition isolated_launcher (headless : bool) (chromePath : string)
    (userDataDir : path) : Launcher :=
  Set_ "--remote-debugging-port" ["0"]
    (Set_ "--disable-features" ["VizDisplayCompositor"]
       (Set_ "--no-sandbox" []
          (UserDataDir userDataDir
             (Headless headless
                (Bin chromePath launcher_New))))).

(** What follows the launch in [NewChromeBrowser]. *)
Definition after_launch (l : Launcher) (url : Endpoint) : M (option ChromeBrowser) :=
  logrus_Infof "Chrome launched at: %s" ;;
  browser <- MustConnect url ;;
  ChromeLaunch.loadCookiesForBrowser browser ;;
  ret (Some {| browser := browser; launcher := Some l |}).

(** A step that changes nothing but files, directories and the log:
    no directory is removed and [ext] is appended to the log. *)
Definition provisioning_frame (w w1 : World) (ext : list LogEntry) : Prop :=
  procs w1 = procs w ∧ conns w1 = conns w ∧ injected w1 = injected w ∧
  bodies w1 = bodies w ∧ requests w1 = requests w ∧
  dirs w ⊆ dirs w1 ∧
  log w1 = (log w ++ ext)%list.

(** Where [copyUserCookiesToAutomation] of the attaching version looks
    for the user's cookie database: its [getUserChromeDataDir] already
    ends in [Default], and the copy joins [Default/Cookies] once more. *)
Definition attach_user_cookies_path : path :=
  match user_home_dir with
  | Some homeDir =>
      (homeDir ++ ["Library"; "Application Support"; "Google"; "Chrome";
                   "Default"; "Default"; "Cookies"])%list
  | None => ["Default"; "Cookies"]
  end.

(** [os.Create p] can succeed in [w]. *)
Definition can_create (w : World) (p : path) : bool :=
  negb (create_fault p) && negb (is_dir w p) &&
  (bool_decide (parent p = []) || is_dir w (parent p)).

(** The sum of the timeouts of a list of requests. *)
Definition total_timeout (rs : list (string * Z)) : Z :=
  foldr (fun r acc => (snd r + acc)%Z) 0%Z rs.

(** [n] calls of a [Close] method in a row. *)
Fixpoint repeat_close (close : M unit) (n : nat) : M unit :=
  match n with
  | O => ret tt
  | S n => close ;; repeat_close close n
  end.

End Vocabulary.

(** ** Concrete environments, for evaluating the functions *)

Definition w_empty : World := MkWorld ∅ ∅ [] [] [] [] [] [].

Definition chrome_bin : string :=
  "/Applications/Google Chrome.app/Contents/MacOS/Google Chrome".

(** A machine with no Chrome installed, no debugging port open, no
    cookie file, and where nothing else goes wrong. *)
Definition bare_env : Env :=
  {| file_mode := fun _ => None;
     http_get := fun _ => HttpErr;
     rod_connect := fun _ => true;
     launch_ok := fun _ => true;
     set_cookies_ok := fun _ => true;
     user_home_dir := Some ["Users"; "me"];
     cookie_file := CookieMissing;
     json_unmarshal := fun _ => None;
     mkdir_fault := fun _ => false;
     stat_fault := fun _ => false;
     open_fault := fun _ => false;
     create_fault := fun _ => false;
     copy_fault := fun _ => None |}.

Definition with_modes (f : string -> option FileMode) (e : Env) : Env :=
  {| file_mode := f; http_get := @http_get e; rod_connect := @rod_connect e;
     launch_ok := @launch_ok e; set_cookies_ok := @set_cookies_ok e;
     user_home_dir := @user_home_dir e; cookie_file := @cookie_file e;
     json_unmarshal := @json_unmarshal e; mkdir_fault := @mkdir_fault e;
     stat_fault := @stat_fault e; open_fault := @open_fault e;
     create_fault := @create_fault e; copy_fault := @copy_fault e |}.
Definition with_http (f : string -> HttpResult) (e : Env) : Env :=
  {| file_mode := @file_mode e; http_get := f; rod_connect := @rod_connect e;
     launch_ok := @launch_ok e; set_cookies_ok := @set_cookies_ok e;
     user_home_dir := @user_home_dir e; cookie_file := @cookie_file e;
     json_unmarshal := @json_unmarshal e; mkdir_fault := @mkdir_fault e;
     stat_fault := @stat_fault e; open_fault := @open_fault e;
     create_fault := @create_fault e; copy_fault := @copy_fault e |}.
Definition with_cookie_file (c : CookieFile) (e : Env) : Env :=
  {| file_mode := @file_mode e; http_get := @http_get e; rod_connect := @rod_connect e;
     launch_ok := @launch_ok e; set_cookies_ok := @set_cookies_ok e;
     user_home_dir := @user_home_dir e; cookie_file := c;
     json_unmarshal := @json_unmarshal e; mkdir_fault := @mkdir_fault e;
     stat_fault := @stat_fault e; open_fault := @open_fault e;
     create_fault := @create_fault e; copy_fault := @copy_fault e |}.

(** The same machine with Google Chrome installed, mode 0755. *)
Definition chrome_env : Env :=
  with_modes (fun p => if String.eqb p chrome_bin then Some (MkMode false 493) else None)
             bare_env.

(** Only port 9223 answers the version request, with status 200. *)
Definition port9223_env : Env :=
  with_http (fun u => if String.eqb u "http://localhost:9223/json/version"
                      then HttpResp 200 else HttpErr)
            bare_env.

(** The cookie file holds the single byte [{], which is not JSON. *)
Definition malformed_env : Env :=
  with_cookie_file (CookieContent [Byte.x7b]) chrome_env.

Definition user_data : bytes := [Byte.x55; Byte.x53].
Definition auto_data : bytes := [Byte.x41; Byte.x55; Byte.x54; Byte.x4f].

Definition with_home (h : option path) (e : Env) : Env :=
  {| file_mode := @file_mode e; http_get := @http_get e; rod_connect := @rod_connect e;
     launch_ok := @launch_ok e; set_cookies_ok := @set_cookies_ok e;
     user_home_dir := h; cookie_file := @cookie_file e;
     json_unmarshal := @json_unmarshal e; mkdir_fault := @mkdir_fault e;
     stat_fault := @stat_fault e; open_fault := @open_fault e;
     create_fault := @create_fault e; copy_fault := @copy_fault e |}.
Definition with_launch (f : Launcher -> bool) (e : Env) : Env :=
  {| file_mode := @file_mode e; http_get := @http_get e; rod_connect := @rod_connect e;
     launch_ok := f; set_cookies_ok := @set_cookies_ok e;
     user_home_dir := @user_home_dir e; cookie_file := @cookie_file e;
     json_unmarshal := @json_unmarshal e; mkdir_fault := @mkdir_fault e;
     stat_fault := @stat_fault e; open_fault := @open_fault e;
     create_fault := @create_fault e; copy_fault := @copy_fault e |}.
Definition with_unmarshal (f : bytes -> option (list Cookie)) (e : Env) : Env :=
  {| file_mode := @file_mode e; http_get := @http_get e; rod_connect := @rod_connect e;
     launch_ok := @launch_ok e; set_cookies_ok := @set_cookies_ok e;
     user_home_dir := @user_home_dir e; cookie_file := @cookie_file e;
     json_unmarshal := f; mkdir_fault := @mkdir_fault e;
     stat_fault := @stat_fault e; open_fault := @open_fault e;
     create_fault := @create_fault e; copy_fault := @copy_fault e |}.
Definition with_copy_fault (f : path -> option nat) (e : Env) : Env :=
  {| file_mode := @file_mode e; http_get := @http_get e; rod_connect := @rod_connect e;
     launch_ok := @launch_ok e; set_cookies_ok := @set_cookies_ok e;
     user_home_dir := @user_home_dir e; cookie_file := @cookie_file e;
     json_unmarshal := @json_unmarshal e; mkdir_fault := @mkdir_fault e;
     stat_fault := @stat_fault e; open_fault := @open_fault e;
     create_fault := @create_fault e; copy_fault := f |}.



(** Port 9222 answers the version request with 204 No Content, port
    9223 with 200; every control connection would open. *)
Definition port204_env : Env :=
  with_http (fun u => if String.eqb u "http://localhost:9222/json/version"
                      then HttpResp 204
                      else if String.eqb u "http://localhost:9223/json/version"
                           then HttpResp 200 else HttpErr)
            bare_env.

(** Chrome is installed but the home directory cannot be determined. *)
Definition homeless_env : Env := with_home None chrome_env.

(** Chrome is installed but no browser process can be started. *)
Definition no_launch_env : Env := with_launch (fun _ => false) chrome_env.

(** The cookie file holds [[]] and parses to one session cookie. *)
Definition session_cookie : Cookie :=
  MkCookie "web_session" "abc" ".xiaohongshu.com" "/".
Definition cookie_env : Env :=
  with_unmarshal (fun _ => Some [session_cookie])
    (with_cookie_file (CookieContent [Byte.x5b; Byte.x5d]) chrome_env).

(** Every write of a copy breaks off after one byte. *)
Definition short_write_env : Env := with_copy_fault (fun _ => Some 1) chrome_env.

(** A cookie database at the relative path [Default/Cookies], and one
    file [a] beside an empty directory [d]. *)
Definition w_relative : World :=
  MkWorld {[ ["Default"; "Cookies"] := user_data ]} ∅ [] [] [] [] [] [].
Definition w_files : World :=
  MkWorld {[ ["a"] := user_data; ["d"; "b"] := auto_data ]} {[ ["d"] ]} [] [] [] [] [] [].

(** The user of [chrome_env] has a two-byte cookie database in the
    default profile; nothing else is on disk. *)
Definition w_user : World :=
  MkWorld {[ ["Users"; "me"; "Library"; "Application Support"; "Google"; "Chrome";
              "Default"; "Cookies"] := user_data ]}
          ∅ [] [] [] [] [] [].


(** The world a first provisioning leaves, after the automation Chrome
    has since written its own cookie database. *)
Definition w_second : World :=
  let w1 := world (@provision chrome_env w_user) in
  set_fs w1 (<[ @automation_cookies_path chrome_env := auto_data ]> (files w1)) (dirs w1).

(** ** The locator *)

Section LocatorFacts.
Context {env : Env}.

Lemma findChromePath_range_run (paths : list string) (w : World) :
  findChromePath_range paths w =
    (Done (default EmptyString (head (filter (fun p => executable p = true) paths))), w).
Proof.
  induction paths as [|p rest IH]; [reflexivity|].
  cbn [findChromePath_range]. unfold bind, exec_LookPath, ret.
  rewrite filter_cons. destruct (executable p) eqn:E.
  - rewrite decide_True by done. reflexivity.
  - rewrite decide_False by done. rewrite <- IH. by destruct (file_mode p).
Qed.

Lemma head_filter_Some {A} (P : A -> Prop) `{!∀ x, Decision (P x)} (l : list A) (x : A) :
  head (filter P l) = Some x ->
  ∃ pre post, l = (pre ++ x :: post)%list ∧ P x ∧ Forall (fun y => ¬ P y) pre.
Proof.
  induction l as [|a l IH]; [done|].
  rewrite filter_cons. destruct (decide (P a)) as [Ha|Ha].
  - intros [= ->]. by exists [], l.
  - intros (pre & post & -> & Hx & Hpre)%IH.
    exists (a :: pre), post. split_and!; [done|done|by constructor].
Qed.

Lemma head_filter_None {A} (P : A -> Prop) `{!∀ x, Decision (P x)} (l : list A) :
  head (filter P l) = None <-> Forall (fun y => ¬ P y) l.
Proof.
  induction l as [|a l IH]; [by split|].
  rewrite filter_cons. destruct (decide (P a)) as [Ha|Ha]; cbn.
  - split; [done|]. by intros [? _]%Forall_cons.
  - rewrite IH, Forall_cons. tauto.
Qed.

End LocatorFacts.

Section LocatorTheorems.
Context {env : Env}.

Lemma first_executable_candidate (w : World) :
  ∃ r : string,
    findChromePath w = (Done r, w) ∧
    (r = EmptyString <-> Forall (fun p => executable p = false) chromePaths) ∧
    (r ≠ EmptyString ->
       ∃ pre post, chromePaths = (pre ++ r :: post)%list ∧ executable r = true ∧
                   Forall (fun p => executable p = false) pre).
Proof.
  unfold findChromePath.
  rewrite findChromePath_range_run.
  destruct (head (filter (fun p => executable p = true) chromePaths)) as [r|] eqn:E; cbn [default].
  - exists r. apply head_filter_Some in E as (pre & post & Hl & Hr & Hpre).
    assert (Hne : r ≠ EmptyString).
    { intros ->. assert (Hin : In EmptyString chromePaths).
      { rewrite Hl. apply in_or_app. right. by left. }
      cbn in Hin. intuition discriminate. }
    assert (Hpre' : Forall (fun p => executable p = false) pre).
    { eapply Forall_impl; [exact Hpre|]. intros p Hp. by apply not_true_is_false. }
    split; [done|]. split; [|intros _; by exists pre, post].
    split; [done|]. intros Hall. rewrite Hl in Hall.
    apply Forall_app in Hall as [_ [Hx _]%Forall_cons]. congruence.
  - exists EmptyString. apply head_filter_None in E.
    split; [done|]. split; [|done].
    split; [|done]. intros _. eapply Forall_impl; [exact E|].
    intros p Hp. by apply not_true_is_false.
Qed.

(** C9. [findChromePath] takes no argument and leaves the world as it
    found it; it returns the first path of the fixed candidate list that
    [exec.LookPath] accepts (the file exists, is not a directory and is
    executable), and the empty string exactly when no candidate is
    accepted.  [isSystemChromeAvailable] says whether that result is
    non-empty. *)
Theorem findChromePath_first_executable (w : World) :
  ∃ r : string,
    findChromePath w = (Done r, w) ∧
    isSystemChromeAvailable w = (Done (negb (String.eqb r EmptyString)), w) ∧
    (r = EmptyString <-> Forall (fun p => executable p = false) chromePaths) ∧
    (r ≠ EmptyString ->
       ∃ pre post, chromePaths = (pre ++ r :: post)%list ∧ executable r = true ∧
                   Forall (fun p => executable p = false) pre).
Proof.
  destruct (first_executable_candidate w) as (r & E & Hnone & Hsome).
  exists r. split; [done|]. split; [|done].
  unfold isSystemChromeAvailable, bind. by rewrite E.
Qed.

End LocatorTheorems.

(** ** The session handle *)

Section HandleTheorems.
Context {env : Env}.

Lemma repeat_close_log (m : string) (n : nat) (w : World) :
  repeat_close (logrus_Info m) n w =
    (Done tt, set_log w (log w ++ replicate n (Log Info m))).
Proof.
  revert w. induction n as [|n IH]; intros w; cbn [repeat_close replicate].
  - unfold ret, set_log. rewrite app_nil_r. by destruct w.
  - unfold bind. cbn. rewrite IH. unfold set_log; cbn.
    by rewrite <- app_assoc.
Qed.

(** C5. [Close] of every handle ([CustomBrowser] and both versions of
    [ChromeBrowser]), called any number of times on any handle in any
    world, returns normally and leaves the spawned processes, the control
    connections, the injected cookies and the files as they were; only
    log lines are added. *)
Theorem Close_keeps_browser_running (cb : CustomBrowser) (ch : ChromeBrowser)
    (n : nat) (w : World) :
  Forall (fun close : M unit =>
            outcome (repeat_close close n w) = Done tt ∧
            procs (world (repeat_close close n w)) = procs w ∧
            conns (world (repeat_close close n w)) = conns w ∧
            injected (world (repeat_close close n w)) = injected w ∧
            files (world (repeat_close close n w)) = files w ∧
            dirs (world (repeat_close close n w)) = dirs w ∧
            length (log (world (repeat_close close n w))) = length (log w) + n)
         [CustomBrowser_Close cb; ChromeAttach.Close ch; ChromeLaunch.Close ch].
Proof.
  unfold CustomBrowser_Close, ChromeAttach.Close, ChromeLaunch.Close.
  repeat constructor; rewrite repeat_close_log; cbn;
    rewrite ?length_app, ?length_replicate; done.
Qed.

End HandleTheorems.

(** ** The existing-instance connector *)

Section ConnectorTheorems.
Context {env : Env}.

Lemma probing_frame_refl (w : World) : probing_frame w w.
Proof. by repeat split. Qed.

Lemma probing_frame_trans (w w1 w2 : World) :
  probing_frame w w1 -> probing_frame w1 w2 -> probing_frame w w2.
Proof.
  intros (?&?&?&?&?&Hb1) (?&?&?&?&?&Hb2).
  repeat split; try congruence. auto.
Qed.

Lemma elem_of_closed_body (u url : string) (b : list string) :
  u ∈ filter (fun v => v ≠ url) (b ++ [url])%list -> u ∈ b.
Proof.
  rewrite filter_app, elem_of_app, !list_elem_of_filter.
  intros [[_ ?]|[Hne Hin]]; [done|].
  apply list_elem_of_singleton in Hin. congruence.
Qed.

(** One turn of the loop on a port that cannot be attached. *)
Lemma connect_range_skip_one (p : string) (rest : list string) (w : World) :
  attachable p = false ->
  ∃ w1, ChromeAttach.connect_range (p :: rest) w = ChromeAttach.connect_range rest w1 ∧
        requests w1 = (requests w ++ [probe p])%list ∧ conns w1 = conns w ∧
        probing_frame w w1.
Proof.
  unfold attachable. intros Hp. cbn [ChromeAttach.connect_range].
  unfold bind at 1. unfold client_Get.
  fold (control_url p). fold (version_url p).
  destruct (http_get (version_url p)) as [|s] eqn:Hget.
  - eexists. split; [reflexivity|]. cbn. by split_and!.
  - unfold bind at 1. unfold Body_Close at 1.
    destruct (s =? 200)%Z eqn:Hs; cbn [andb] in Hp.
    + unfold bind at 1, Connect at 1. rewrite Hp.
      eexists. split; [reflexivity|]. cbn. split_and!; try done.
      unfold probing_frame;
        cbn [bodies set_http set_conns procs files dirs log injected];
        split_and!; try done; intros u; apply elem_of_closed_body.
    + eexists. split; [reflexivity|]. cbn. split_and!; try done.
      unfold probing_frame;
        cbn [bodies set_http set_conns procs files dirs log injected];
        split_and!; try done; intros u; apply elem_of_closed_body.
Qed.

Lemma connect_range_skip (pre rest : list string) (w : World) :
  Forall (fun p => attachable p = false) pre ->
  ∃ w1, ChromeAttach.connect_range (pre ++ rest) w = ChromeAttach.connect_range rest w1 ∧
        requests w1 = (requests w ++ map probe pre)%list ∧ conns w1 = conns w ∧
        probing_frame w w1.
Proof.
  revert w. induction pre as [|p pre IH]; intros w Hpre.
  - exists w. cbn. rewrite app_nil_r. by split_and!.
  - apply Forall_cons in Hpre as [Hp Hpre].
    destruct (connect_range_skip_one p (pre ++ rest) w Hp) as (w1 & E1 & R1 & C1 & F1).
    destruct (IH w1 Hpre) as (w2 & E2 & R2 & C2 & F2).
    exists w2. cbn [app]. rewrite E1, E2, R2, R1, C2, C1. cbn [map].
    rewrite <- app_assoc. split_and!; try done.
    by eapply probing_frame_trans.
Qed.

Lemma connect_range_hit (p : string) (rest : list string) (w : World) :
  attachable p = true ->
  ∃ w1, ChromeAttach.connect_range (p :: rest) w
          = (Done (Some (MkRod (AtURL (control_url p)))), w1) ∧
        requests w1 = (requests w ++ [probe p])%list ∧
        conns w1 = (conns w ++ [AtURL (control_url p)])%list ∧
        probing_frame w w1.
Proof.
  unfold attachable. intros Hp. cbn [ChromeAttach.connect_range].
  unfold bind at 1. unfold client_Get.
  fold (control_url p). fold (version_url p).
  destruct (http_get (version_url p)) as [|s] eqn:Hget; [done|].
  apply andb_prop in Hp as [Hs Hc].
  unfold bind at 1. unfold Body_Close at 1. rewrite Hs.
  unfold bind at 1, Connect at 1. rewrite Hc.
  eexists. split; [reflexivity|]. cbn. split_and!; try done.
  unfold probing_frame;
    cbn [bodies set_http set_conns procs files dirs log injected];
    split_and!; try done; intros u; apply elem_of_closed_body.
Qed.

(** C4, as the code has it.  [connectToExistingChrome] probes the ports
    9222, 9223, 9224 in that order, each with a two-second timeout.  It
    attaches to the lowest-indexed port whose version request is answered
    with status 200, no other, and whose control connection opens: it returns that browser, has
    issued requests for exactly the ports up to and including it, and
    holds exactly one new control connection, the one to that port.  When
    no port can be attached it returns the error, having probed all three
    and opened no control connection.  In either case every response body
    it opened is closed again and no process is spawned. *)
Theorem connectToExistingChrome_first_match (w : World) :
  ChromeAttach.ports = ["9222"; "9223"; "9224"] ∧
  (∀ (i : nat) (port : string),
      ChromeAttach.ports !! i = Some port ->
      attachable port = true ->
      (∀ (j : nat) (q : string),
          j < i -> ChromeAttach.ports !! j = Some q -> attachable q = false) ->
      outcome (ChromeAttach.connectToExistingChrome w)
        = Done (Some (MkRod (AtURL (control_url port)))) ∧
      requests (world (ChromeAttach.connectToExistingChrome w))
        = (requests w ++ map probe (take (S i) ChromeAttach.ports))%list ∧
      conns (world (ChromeAttach.connectToExistingChrome w))
        = (conns w ++ [AtURL (control_url port)])%list) ∧
  ((∀ q : string, q ∈ ChromeAttach.ports -> attachable q = false) ->
      outcome (ChromeAttach.connectToExistingChrome w) = Done None ∧
      requests (world (ChromeAttach.connectToExistingChrome w))
        = (requests w ++ map probe ChromeAttach.ports)%list ∧
      conns (world (ChromeAttach.connectToExistingChrome w)) = conns w) ∧
  probing_frame w (world (ChromeAttach.connectToExistingChrome w)).
Proof.
  unfold ChromeAttach.connectToExistingChrome.
  generalize ChromeAttach.ports at 2 3 4 5 6 7 8 9 10 11 12 13 as ps. intros ps.
  split; [reflexivity|].
  assert (Hframe : probing_frame w (world (ChromeAttach.connect_range ps w))).
  { revert w. induction ps as [|p ps IH]; intros w; [apply probing_frame_refl|].
    destruct (attachable p) eqn:Hp.
    - destruct (connect_range_hit p ps w Hp) as (w1 & E & _ & _ & F). by rewrite E.
    - destruct (connect_range_skip_one p ps w Hp) as (w1 & E & _ & _ & F).
      rewrite E. eapply probing_frame_trans; [exact F|apply IH]. }
  split_and!; [| |exact Hframe].
  - intros i port Hi Hport Hbefore.
    assert (Hpre : Forall (fun p => attachable p = false) (take i ps)).
    { apply Forall_lookup_2. intros j q Hj.
      apply lookup_take_Some in Hj as [Hj ?]. eauto. }
    rewrite <- (take_drop_middle ps i port Hi).
    destruct (connect_range_skip (take i ps) (port :: drop (S i) ps) w Hpre)
      as (w1 & E1 & R1 & C1 & _).
    destruct (connect_range_hit port (drop (S i) ps) w1 Hport) as (w2 & E2 & R2 & C2 & _).
    rewrite E1, E2. cbn [outcome world fst snd].
    rewrite R2, R1, C2, C1, <- app_assoc.
    split_and!; try done. f_equal.
    rewrite (take_drop_middle ps i port Hi).
    rewrite (take_S_r ps i port Hi), map_app. done.
  - intros Hnone.
    assert (Hall : Forall (fun p => attachable p = false) ps) by by apply Forall_forall.
    destruct (connect_range_skip ps [] w Hall) as (w1 & E1 & R1 & C1 & _).
    rewrite app_nil_r in E1. rewrite E1. cbn. by rewrite R1, C1.
Qed.

End ConnectorTheorems.

(** C4 as stated fails for a success status other than 200.  Port 9222,
    the first of the list, answers its version request with 204 and its
    control connection would open, yet [connectToExistingChrome] passes
    it over and attaches to port 9223. *)
Lemma connectToExistingChrome_skips_other_2xx :
  ChromeAttach.ports !! 0 = Some "9222" ∧
  @answers_2xx port204_env "9222" = true ∧
  @rod_connect port204_env (AtURL (control_url "9222")) = true ∧
  @attachable port204_env "9222" = false ∧
  outcome (@ChromeAttach.connectToExistingChrome port204_env w_empty)
    = Done (Some (MkRod (AtURL (control_url "9223")))) ∧
  conns (world (@ChromeAttach.connectToExistingChrome port204_env w_empty))
    = [AtURL (control_url "9223")].
Proof. by vm_compute. Qed.

(** ** The orchestrator *)

Section OrchestratorFacts.
Context {env : Env}.

#[local] Arguments Set_ : simpl never.

Lemma findChromePath_run (w : World) :
  findChromePath w =
    (Done (default EmptyString (head (filter (fun p => executable p = true) chromePaths))), w).
Proof. apply findChromePath_range_run. Qed.

Lemma findChromePath_none (w : World) :
  Forall (fun p => executable p = false) chromePaths ->
  findChromePath w = (Done EmptyString, w).
Proof.
  intros Hall. rewrite findChromePath_run.
  assert (E : head (filter (fun p => executable p = true) chromePaths) = None).
  { apply head_filter_None. eapply Forall_impl; [exact Hall|].
    intros p Hp. congruence. }
  by rewrite E.
Qed.

Lemma findChromePath_some (w : World) :
  Exists (fun p => executable p = true) chromePaths ->
  ∃ chromePath, findChromePath w = (Done chromePath, w) ∧
                String.eqb chromePath EmptyString = false ∧
                executable chromePath = true.
Proof.
  intros Hex. destruct (first_executable_candidate w) as (r & E & Hnone & Hsome).
  exists r. split; [done|].
  destruct (String.eqb_spec r EmptyString) as [->|Hne].
  - exfalso. apply Exists_exists in Hex as (p & Hin & Hp).
    assert (Hall := proj1 Hnone eq_refl).
    rewrite Forall_forall in Hall. specialize (Hall p Hin). congruence.
  - split; [done|]. by destruct (Hsome Hne) as (? & ? & _ & ? & _).
Qed.

Lemma headless_browser_New_run (opts : list HBOption) (w : World) :
  launch_ok (default_launcher (hbc_Headless (hb_config opts))) = true ->
  rod_connect (OfProc (length (procs w))) = true ->
  (library_cookies (hbc_Cookies (hb_config opts)) = None ∨
   set_cookies_ok (OfProc (length (procs w))) = true) ->
  ∃ w',
    headless_browser_New opts w
      = (Done (MkHB (MkRod (OfProc (length (procs w))))
                    (default_launcher (hbc_Headless (hb_config opts)))), w') ∧
    procs w' = (procs w ++ [MkProc (default_launcher (hbc_Headless (hb_config opts)))
                                   (files w)])%list ∧
    conns w' = (conns w ++ [OfProc (length (procs w))])%list ∧
    injected w' = (injected w ++
                   match library_cookies (hbc_Cookies (hb_config opts)) with
                   | Some cs => [(OfProc (length (procs w)), cs)]
                   | None => []
                   end)%list ∧
    files w' = files w ∧ dirs w' = dirs w ∧
    log w' = (log w ++ library_log (hbc_Cookies (hb_config opts)))%list.
Proof.
  intros Hl Hc Hs. unfold headless_browser_New.
  fold (hb_config opts). fold (default_launcher (hbc_Headless (hb_config opts))).
  unfold bind at 1, MustLaunch at 1. rewrite Hl.
  unfold bind at 1, MustConnect at 1, bind at 1, Connect at 1.
  cbn [conns set_procs]. rewrite Hc. unfold ret at 1.
  unfold bind at 1, library_cookies, library_log.
  destruct (hbc_Cookies (hb_config opts)) as [|b data] eqn:Hk.
  - eexists. split; [reflexivity|]. cbn. by rewrite !app_nil_r.
  - unfold json_Unmarshal. cbn [library_cookies] in Hs.
    destruct (json_unmarshal (b :: data)) as [cs|].
    + destruct Hs as [?|Hs]; [done|].
      unfold MustSetCookies. cbn [control]. rewrite Hs.
      eexists. split; [reflexivity|]. cbn. by rewrite !app_nil_r.
    + eexists. split; [reflexivity|]. cbn. by rewrite !app_nil_r.
Qed.

Lemma loadCookiesForBrowser_run (b : RodBrowser) (w : World) :
  (stored_cookies = None ∨ set_cookies_ok (control b) = true) ->
  ∃ w',
    ChromeLaunch.loadCookiesForBrowser b w = (Done tt, w') ∧
    injected w' = (injected w ++
                   match stored_cookies with
                   | Some cs => [(control b, cs)]
                   | None => []
                   end)%list ∧
    log w' = (log w ++ cookie_log)%list ∧
    procs w' = procs w ∧ conns w' = conns w ∧ files w' = files w ∧ dirs w' = dirs w.
Proof.
  unfold ChromeLaunch.loadCookiesForBrowser, stored_cookies, cookie_log, bind,
    LoadCookies, ret, json_Unmarshal.
  intros Hs. destruct cookie_file as [| |data].
  - eexists. split; [reflexivity|]. cbn. by rewrite app_nil_r.
  - eexists. split; [reflexivity|]. cbn. by rewrite app_nil_r.
  - destruct (json_unmarshal data) as [cs|] eqn:Hj; cbn beta iota; rewrite ?Hj.
    + destruct Hs as [?|Hs]; [done|]. unfold MustSetCookies. rewrite Hs.
      eexists. split; [reflexivity|]. by cbn.
    + eexists. split; [reflexivity|]. cbn. by rewrite !app_nil_r.
Qed.

Lemma loadCookiesForBrowser_same (b : RodBrowser) :
  ChromeAttach.loadCookiesForBrowser b = ChromeLaunch.loadCookiesForBrowser b.
Proof. reflexivity. Qed.

(** The system-Chrome branch of [NewBrowserWithConfig], run to its end. *)
Lemma NewBrowserWithConfig_system_run (cfg : Config) (w : World) :
  cfg_UseSystemChrome cfg = true ->
  Exists (fun p => executable p = true) chromePaths ->
  launch_ok (system_launcher cfg located_chrome) = true ->
  launch_ok (default_launcher false) = true ->
  rod_connect (OfProc (length (procs w))) = true ->
  rod_connect (OfProc (S (length (procs w)))) = true ->
  (stored_cookies = None ∨ set_cookies_ok (OfProc (length (procs w))) = true) ->
  ∃ w',
    NewBrowserWithConfig cfg w
      = (Done (MkHB (MkRod (OfProc (S (length (procs w))))) (default_launcher false)), w') ∧
    procs w' = (procs w ++ [MkProc (system_launcher cfg located_chrome) (files w);
                            MkProc (default_launcher false) (files w)])%list ∧
    conns w' = (conns w ++ [OfProc (length (procs w)); OfProc (S (length (procs w)))])%list ∧
    injected w' = (injected w ++
                   match stored_cookies with
                   | Some cs => [(OfProc (length (procs w)), cs)]
                   | None => []
                   end)%list ∧
    log w' = (log w ++ [Log Info "Using system Chrome"; Log Info "Found Chrome at: %s"]
               ++ cookie_log ++
               [Log Info "Chrome browser launched successfully, creating compatible wrapper"])%list ∧
    files w' = files w ∧ dirs w' = dirs w.
Proof.
  intros Hcfg Hex Hl1 Hl2 Hc1 Hc2 Hs.
  destruct (findChromePath_some w Hex) as (cp & Ecp & Hne & _).
  rewrite findChromePath_run in Ecp. fold located_chrome in Ecp.
  injection Ecp as <-.
  unfold NewBrowserWithConfig. rewrite Hcfg.
  unfold bind at 1. unfold isSystemChromeAvailable, bind at 1.
  rewrite findChromePath_run. fold located_chrome. unfold ret at 1.
  rewrite Hne. cbn [negb].
  unfold bind at 1, logrus_Info at 1, logrus at 1.
  unfold bind at 1. rewrite findChromePath_run. fold located_chrome.
  rewrite Hne. cbn [negb].
  unfold bind at 1, bind at 1, logrus_Infof at 1, logrus at 1, ret at 1.
  fold (system_launcher cfg located_chrome).
  unfold bind at 1, MustLaunch at 1. rewrite Hl1.
  unfold bind at 1, MustConnect at 1, bind at 1, Connect at 1.
  cbn [set_procs set_log procs conns files]. rewrite Hc1. unfold ret at 1.
  unfold bind at 1.
  change (bind LoadCookies _) with
    (ChromeLaunch.loadCookiesForBrowser (MkRod (OfProc (length (procs w))))).
  match goal with |- context [ChromeLaunch.loadCookiesForBrowser ?b ?w1] =>
    destruct (loadCookiesForBrowser_run b w1 Hs) as (w2 & E2 & I2 & L2 & P2 & C2 & F2 & D2)
  end.
  rewrite E2. unfold createCompatibleBrowser, bind at 1, logrus_Info at 1, logrus at 1.
  match goal with |- context [headless_browser_New ?o ?w3] =>
    destruct (headless_browser_New_run o w3) as (w4 & E4 & P4 & C4 & I4 & F4 & D4 & L4)
  end.
  { exact Hl2. }
  { cbn [procs set_log]. rewrite P2. cbn. by rewrite length_app, Nat.add_1_r. }
  { by left. }
  cbn [procs set_log] in E4. rewrite P2 in E4. cbn [procs set_conns set_procs] in E4.
  rewrite length_app, Nat.add_1_r in E4. cbn [hb_config fold_left apply_option hbc_Headless] in E4.
  exists w4. split; [exact E4|].
  cbn in P4, C4, I4, F4, D4, L4, I2, L2.
  rewrite P4, C4, I4, F4, D4, L4, P2, C2, I2, F2, D2, L2.
  cbn [procs conns injected files dirs log set_conns set_procs set_log control].
  rewrite ?app_nil_r, <- ?app_assoc, ?length_app, ?Nat.add_1_r. cbn [app]. done.
Qed.

Lemma headless_browser_New_panics (opts : list HBOption) (w : World) :
  launch_ok (default_launcher (hbc_Headless (hb_config opts))) &&
  rod_connect (OfProc (length (procs w))) &&
  match library_cookies (hbc_Cookies (hb_config opts)) with
  | Some _ => set_cookies_ok (OfProc (length (procs w)))
  | None => true
  end = false ->
  outcome (headless_browser_New opts w) = Panicked.
Proof.
  unfold headless_browser_New.
  fold (hb_config opts). fold (default_launcher (hbc_Headless (hb_config opts))).
  unfold bind at 1, MustLaunch at 1.
  destruct (launch_ok _); [|done].
  unfold bind at 1, MustConnect at 1, bind at 1, Connect at 1.
  cbn [conns set_procs procs andb]. destruct (rod_connect _); [|done].
  unfold ret at 1, bind at 1, library_cookies. cbn [andb].
  destruct (hbc_Cookies (hb_config opts)) as [|b data]; [done|].
  unfold json_Unmarshal. destruct (json_unmarshal (b :: data)) as [cs|]; [|done].
  unfold MustSetCookies. cbn [control]. by intros ->.
Qed.

(** The default-fallback branch of [NewBrowserWithConfig] up to the call
    of the library. *)
Lemma NewBrowserWithConfig_fallback_shape (cfg : Config) (w : World) :
  (cfg_UseSystemChrome cfg = false ∨
   Forall (fun p => executable p = false) chromePaths) ->
  ∃ w1,
    NewBrowserWithConfig cfg w = headless_browser_New (fallback_opts cfg) w1 ∧
    procs w1 = procs w ∧ conns w1 = conns w ∧ injected w1 = injected w ∧
    files w1 = files w ∧ dirs w1 = dirs w ∧
    hbc_Headless (hb_config (fallback_opts cfg)) = cfg_Headless cfg ∧
    library_cookies (hbc_Cookies (hb_config (fallback_opts cfg))) = fallback_cookies ∧
    (log w1 ++ library_log (hbc_Cookies (hb_config (fallback_opts cfg))))%list
      = (log w ++
         (if cfg_UseSystemChrome cfg
          then [Log Warn "System Chrome not found or not available, falling back to default Chromium"]
          else []) ++ fallback_cookie_log)%list.
Proof.
  intros Hno.
  assert (Havail :
    (if cfg_UseSystemChrome cfg then isSystemChromeAvailable else ret false) w
      = (Done false, w)).
  { destruct (cfg_UseSystemChrome cfg); [|done].
    destruct Hno as [?|Hno]; [done|].
    unfold isSystemChromeAvailable, bind. by rewrite (findChromePath_none w Hno). }
  unfold NewBrowserWithConfig. unfold bind at 1. rewrite Havail.
  unfold fallback_cookies, fallback_cookie_log, fallback_opts.
  set (w1 := snd ((if cfg_UseSystemChrome cfg
                   then logrus_Warn "System Chrome not found or not available, falling back to default Chromium"
                   else ret tt) w)).
  assert (E1 : (if cfg_UseSystemChrome cfg
                then logrus_Warn "System Chrome not found or not available, falling back to default Chromium"
                else ret tt) w = (Done tt, w1)) by by destruct (cfg_UseSystemChrome cfg).
  assert (F1 : procs w1 = procs w ∧ conns w1 = conns w ∧ injected w1 = injected w ∧
               files w1 = files w ∧ dirs w1 = dirs w ∧
               log w1 = (log w ++ if cfg_UseSystemChrome cfg
                                  then [Log Warn "System Chrome not found or not available, falling back to default Chromium"]
                                  else [])%list).
  { subst w1. destruct (cfg_UseSystemChrome cfg); cbn; by rewrite ?app_nil_r. }
  clearbody w1. destruct F1 as (P1 & C1 & I1 & Fl1 & D1 & L1).
  unfold bind at 1. rewrite E1.
  unfold bind at 1, bind at 1, LoadCookies at 1, ret at 1.
  destruct cookie_file as [| |data]; [| |destruct (json_unmarshal data) as [cs|] eqn:Hj];
    (eexists; split; [reflexivity|]);
    cbn [procs conns injected files dirs log set_log hb_config fold_left apply_option
         hbc_Headless hbc_Cookies library_cookies library_log app];
    rewrite ?L1, ?app_nil_r, <- ?app_assoc; cbn [app];
    split_and!; try done.
  unfold library_cookies. destruct data; [done|]. by rewrite Hj.
Qed.

(** The default-fallback branch of [NewBrowserWithConfig], run to its end. *)
Lemma NewBrowserWithConfig_fallback_run (cfg : Config) (w : World) :
  (cfg_UseSystemChrome cfg = false ∨
   Forall (fun p => executable p = false) chromePaths) ->
  launch_ok (default_launcher (cfg_Headless cfg)) = true ->
  rod_connect (OfProc (length (procs w))) = true ->
  (fallback_cookies = None ∨ set_cookies_ok (OfProc (length (procs w))) = true) ->
  ∃ w',
    NewBrowserWithConfig cfg w
      = (Done (MkHB (MkRod (OfProc (length (procs w))))
                    (default_launcher (cfg_Headless cfg))), w') ∧
    procs w' = (procs w ++ [MkProc (default_launcher (cfg_Headless cfg)) (files w)])%list ∧
    conns w' = (conns w ++ [OfProc (length (procs w))])%list ∧
    injected w' = (injected w ++
                   match fallback_cookies with
                   | Some cs => [(OfProc (length (procs w)), cs)]
                   | None => []
                   end)%list ∧
    log w' = (log w ++
              (if cfg_UseSystemChrome cfg
               then [Log Warn "System Chrome not found or not available, falling back to default Chromium"]
               else []) ++ fallback_cookie_log)%list ∧
    files w' = files w ∧ dirs w' = dirs w.
Proof.
  intros Hno Hl Hc Hs.
  destruct (NewBrowserWithConfig_fallback_shape cfg w Hno)
    as (w1 & E & P1 & C1 & I1 & F1 & D1 & Hh & Hk & Hlog).
  destruct (headless_browser_New_run (fallback_opts cfg) w1)
    as (w' & E' & P & C & I & F & D & L).
  { by rewrite Hh. }
  { by rewrite P1. }
  { by rewrite Hk, P1. }
  rewrite Hh, P1 in E'. exists w'. rewrite E. split; [exact E'|].
  rewrite P, C, I, F, D, L, Hh, Hk, P1, C1, I1, F1, D1, Hlog. done.
Qed.

Lemma NewBrowserWithConfig_fallback_panics (cfg : Config) (w : World) :
  (cfg_UseSystemChrome cfg = false ∨
   Forall (fun p => executable p = false) chromePaths) ->
  fallback_session_ok cfg w = false ->
  outcome (NewBrowserWithConfig cfg w) = Panicked.
Proof.
  intros Hno Hbad.
  destruct (NewBrowserWithConfig_fallback_shape cfg w Hno)
    as (w1 & E & P1 & _ & _ & _ & _ & Hh & Hk & _).
  rewrite E. apply headless_browser_New_panics.
  by rewrite Hh, Hk, P1.
Qed.

End OrchestratorFacts.

Section OrchestratorTheorems.
Context {env : Env}.

(** C10. With [UseSystemChrome] set and a system Chrome located, and when
    both launches and connections succeed, [NewBrowserWithConfig] spawns
    the system Chrome and then a second process from the library's
    default launcher (no binary path, headless off).  The browser handed
    to the caller is connected to that second process, not to the system
    Chrome; the cookies of the cookie file were injected over the system
    Chrome's connection only. *)
Theorem NewBrowserWithConfig_returns_fresh_default_browser (cfg : Config) (w : World) :
  cfg_UseSystemChrome cfg = true ->
  Exists (fun p => executable p = true) chromePaths ->
  launch_ok (system_launcher cfg located_chrome) = true ->
  launch_ok (default_launcher false) = true ->
  rod_connect (OfProc (length (procs w))) = true ->
  rod_connect (OfProc (S (length (procs w)))) = true ->
  (stored_cookies = None ∨ set_cookies_ok (OfProc (length (procs w))) = true) ->
  findChromePath w = (Done located_chrome, w) ∧
  outcome (NewBrowserWithConfig cfg w)
    = Done (MkHB (MkRod (OfProc (S (length (procs w))))) (default_launcher false)) ∧
  procs (world (NewBrowserWithConfig cfg w))
    = (procs w ++ [MkProc (system_launcher cfg located_chrome) (files w);
                   MkProc (default_launcher false) (files w)])%list ∧
  l_bin (default_launcher false) = EmptyString ∧
  l_headless (default_launcher false) = false ∧
  injected (world (NewBrowserWithConfig cfg w))
    = (injected w ++ match stored_cookies with
                     | Some cs => [(OfProc (length (procs w)), cs)]
                     | None => []
                     end)%list ∧
  OfProc (length (procs w)) ≠ OfProc (S (length (procs w))).
Proof.
  intros Hcfg Hex Hl1 Hl2 Hc1 Hc2 Hs.
  destruct (NewBrowserWithConfig_system_run cfg w Hcfg Hex Hl1 Hl2 Hc1 Hc2 Hs)
    as (w' & E & P & _ & I & _).
  rewrite E. cbn [outcome world fst snd].
  split_and!; try done.
  - apply findChromePath_run.
  - intros [= H]. lia.
Qed.

End OrchestratorTheorems.

Lemma NewBrowserWithConfig_returns_fresh_default_browser_witness :
  let cfg := NewConfig true in
  @findChromePath chrome_env w_empty = (Done (@located_chrome chrome_env), w_empty) ∧
  outcome (@NewBrowserWithConfig chrome_env cfg w_empty)
    = Done (MkHB (MkRod (OfProc 1)) (default_launcher false)) ∧
  procs (world (@NewBrowserWithConfig chrome_env cfg w_empty))
    = [MkProc (system_launcher cfg (@located_chrome chrome_env)) ∅;
       MkProc (default_launcher false) ∅] ∧
  l_bin (default_launcher false) = EmptyString ∧
  l_headless (default_launcher false) = false ∧
  injected (world (@NewBrowserWithConfig chrome_env cfg w_empty)) = [] ∧
  OfProc 0 ≠ OfProc 1.
Proof.
  apply (@NewBrowserWithConfig_returns_fresh_default_browser
           chrome_env (NewConfig true) w_empty).
  - reflexivity.
  - apply Exists_cons_hd. reflexivity.
  - reflexivity.
  - reflexivity.
  - reflexivity.
  - reflexivity.
  - left. reflexivity.
Defined.

(** C2, at the failing input.  Chrome is installed and the caller asks
    for a headless browser: the system Chrome is launched headless, but
    the browser handed back is the second process, which
    [createCompatibleBrowser] launches with headless off. *)
Theorem NewBrowserWithConfig_hands_back_visible_browser :
  cfg_Headless (NewConfig true) = true ∧
  ∃ hb sys ret_proc,
    outcome (@NewBrowserWithConfig chrome_env (NewConfig true) w_empty) = Done hb ∧
    procs (world (@NewBrowserWithConfig chrome_env (NewConfig true) w_empty))
      = [sys; ret_proc] ∧
    l_bin (p_launcher sys) = chrome_bin ∧
    l_headless (p_launcher sys) = true ∧
    control (hb_browser hb) = OfProc 1 ∧
    l_headless (p_launcher ret_proc) = false ∧
    l_headless (hb_launcher hb) = false.
Proof.
  split; [reflexivity|].
  eexists _, _, _. split; [vm_compute; reflexivity|].
  split; [vm_compute; reflexivity|].
  by vm_compute.
Qed.

(** C3, at the failing input.  Chrome is installed and no process has
    been spawned yet: one call of [NewBrowser] spawns two browser
    processes, the system Chrome and the one handed back. *)
Theorem NewBrowser_spawns_two_processes :
  procs w_empty = [] ∧
  length (procs (world (@NewBrowser chrome_env false w_empty))) = 2 ∧
  map (fun p => l_bin (p_launcher p)) (procs (world (@NewBrowser chrome_env false w_empty)))
    = [chrome_bin; EmptyString].
Proof. by vm_compute. Qed.

(** ** What happens when nothing is found *)

Section FallbackTheorems.
Context {env : Env}.

(** C1, as the code has it.  When no candidate binary is executable,
    [findChromePath] returns the empty path; [NewBrowserWithConfig] then
    takes the default-fallback branch and never ends the process with a
    fatal log: it returns a session, on one new process launched with
    the configured headless mode, exactly when the bundled browser
    starts, its control connection opens and it accepts the cookies
    taken from the cookie file, and it panics otherwise.  The launching
    [NewChromeBrowser] instead writes a fatal log entry and the process
    exits, nothing having been spawned.  When no port can be attached,
    [connectToExistingChrome] returns its error to the caller, and the
    attaching [NewChromeBrowser] writes a fatal log entry and the process
    exits, nothing having been spawned. *)
Theorem nothing_found_fallback_or_exit (cfg : Config) (headless : bool) (w : World) :
  (Forall (fun p => executable p = false) chromePaths ->
     findChromePath w = (Done EmptyString, w) ∧
     outcome (NewBrowserWithConfig cfg w)
       = (if fallback_session_ok cfg w
          then Done (MkHB (MkRod (OfProc (length (procs w))))
                          (default_launcher (cfg_Headless cfg)))
          else Panicked) ∧
     (fallback_session_ok cfg w = true ->
      procs (world (NewBrowserWithConfig cfg w))
        = (procs w ++ [MkProc (default_launcher (cfg_Headless cfg)) (files w)])%list) ∧
     outcome (ChromeLaunch.NewChromeBrowser headless w) = Exited ∧
     procs (world (ChromeLaunch.NewChromeBrowser headless w)) = procs w ∧
     log (world (ChromeLaunch.NewChromeBrowser headless w))
       = (log w ++ [Log Fatal "System Chrome not found"])%list) ∧
  ((∀ q : string, q ∈ ChromeAttach.ports -> attachable q = false) ->
     outcome (ChromeAttach.connectToExistingChrome w) = Done None ∧
     outcome (ChromeAttach.NewChromeBrowser headless w) = Exited ∧
     procs (world (ChromeAttach.NewChromeBrowser headless w)) = procs w ∧
     last (log (world (ChromeAttach.NewChromeBrowser headless w)))
       = Some (Log Fatal "Cannot connect to your current Chrome. Please enable remote debugging")).
Proof.
  split.
  - intros Hno. split; [by apply findChromePath_none|].
    assert (Hok : fallback_session_ok cfg w = true ->
              ∃ w', NewBrowserWithConfig cfg w
                      = (Done (MkHB (MkRod (OfProc (length (procs w))))
                                    (default_launcher (cfg_Headless cfg))), w') ∧
                    procs w' = (procs w ++ [MkProc (default_launcher (cfg_Headless cfg))
                                                   (files w)])%list).
    { unfold fallback_session_ok. intros [[Hl Hc]%andb_prop Hs]%andb_prop.
      destruct (NewBrowserWithConfig_fallback_run cfg w (or_intror Hno) Hl Hc)
        as (w' & E & P & _); [|by eauto].
      destruct fallback_cookies; [by right|by left]. }
    split; [|split].
    + destruct (fallback_session_ok cfg w) eqn:Hs.
      * destruct (Hok eq_refl) as (w' & E & _). by rewrite E.
      * by apply NewBrowserWithConfig_fallback_panics; [right|].
    + intros Hs. destruct (Hok Hs) as (w' & E & P). by rewrite E.
    + assert (E : ChromeLaunch.NewChromeBrowser headless w
                    = (Exited, set_log w (log w ++ [Log Fatal "System Chrome not found"]))).
      { unfold ChromeLaunch.NewChromeBrowser, bind at 1.
        by rewrite (findChromePath_none w Hno). }
      by rewrite E.
  - intros Hnone.
    assert (Hall : Forall (fun p => attachable p = false) ChromeAttach.ports)
      by by apply Forall_forall.
    destruct (connect_range_skip ChromeAttach.ports [] w Hall)
      as (w1 & E1 & _ & _ & (P1 & _ & _ & L1 & _)).
    rewrite app_nil_r in E1. cbn [ChromeAttach.connect_range] in E1.
    assert (E : ChromeAttach.NewChromeBrowser headless w
                  = (Exited, set_log w1 (log w1 ++ [Log Fatal "Cannot connect to your current Chrome. Please enable remote debugging"]))).
    { unfold ChromeAttach.NewChromeBrowser, bind at 1, ChromeAttach.connectToExistingChrome.
      by rewrite E1. }
    unfold ChromeAttach.connectToExistingChrome. rewrite E, E1. cbn.
    by rewrite last_snoc.
Qed.

End FallbackTheorems.

(** C1 as stated fails: on a machine where no debugging port answers,
    the attaching [NewChromeBrowser] ends the process instead of falling
    through to a launch; and where no Chrome is installed, the launching
    [NewChromeBrowser] ends the process as well. *)
Lemma NewChromeBrowser_exits_when_nothing_found :
  (∀ q : string, q ∈ ChromeAttach.ports -> @attachable bare_env q = false) ∧
  outcome (@ChromeAttach.connectToExistingChrome bare_env w_empty) = Done None ∧
  outcome (@ChromeAttach.NewChromeBrowser bare_env false w_empty) = Exited ∧
  procs (world (@ChromeAttach.NewChromeBrowser bare_env false w_empty)) = [] ∧
  Forall (fun p => @executable bare_env p = false) chromePaths ∧
  outcome (@ChromeLaunch.NewChromeBrowser bare_env false w_empty) = Exited ∧
  procs (world (@ChromeLaunch.NewChromeBrowser bare_env false w_empty)) = [].
Proof.
  split; [done|]. split; [reflexivity|]. split; [reflexivity|]. split; [reflexivity|].
  split; [by repeat constructor|]. split; reflexivity.
Qed.

(** ** Loading the cookie file *)

Section CookieTheorems.
Context {env : Env}.

Lemma unusable_stored_cookies : cookie_file_unusable -> stored_cookies = None.
Proof. unfold cookie_file_unusable, stored_cookies. by destruct cookie_file. Qed.

Lemma unusable_fallback_cookies : cookie_file_unusable -> fallback_cookies = None.
Proof.
  unfold cookie_file_unusable, fallback_cookies, library_cookies.
  destruct cookie_file as [| |[|b d]]; done.
Qed.

(** C6.  When the cookie file is missing, unreadable or holds malformed
    JSON, cookie loading is recoverable.  [loadCookiesForBrowser] (both
    versions) returns normally and changes nothing but the log, to which
    it adds one warning: no cookie is injected, no process or connection
    is touched.  [NewBrowserWithConfig], on either branch and provided
    its launches and connections succeed, returns a browser with no
    cookie injected, and its log carries the warning. *)
Theorem unusable_cookie_file_is_recoverable (b : RodBrowser) (cfg : Config) (w : World) :
  cookie_file_unusable ->
  ChromeLaunch.loadCookiesForBrowser b w
    = (Done tt, set_log w (log w ++ [Log Warn "failed to load cookies: %v"])) ∧
  ChromeAttach.loadCookiesForBrowser b w
    = (Done tt, set_log w (log w ++ [Log Warn "failed to load cookies: %v"])) ∧
  injected (world (ChromeLaunch.loadCookiesForBrowser b w)) = injected w ∧
  ((∀ l, launch_ok l = true) -> (∀ e, rod_connect e = true) ->
   (∃ hb, outcome (NewBrowserWithConfig cfg w) = Done hb) ∧
   injected (world (NewBrowserWithConfig cfg w)) = injected w ∧
   Log Warn "failed to load cookies: %v" ∈ log (world (NewBrowserWithConfig cfg w))).
Proof.
  intros Hbad.
  assert (Hwarn : cookie_log = [Log Warn "failed to load cookies: %v"] ∧
                  fallback_cookie_log = [Log Warn "failed to load cookies: %v"]).
  { unfold cookie_file_unusable, cookie_log, fallback_cookie_log in *.
    destruct cookie_file as [| |data]; [done|done|]. by rewrite Hbad. }
  assert (E : ChromeLaunch.loadCookiesForBrowser b w
                = (Done tt, set_log w (log w ++ [Log Warn "failed to load cookies: %v"]))).
  { unfold cookie_file_unusable in Hbad.
    unfold ChromeLaunch.loadCookiesForBrowser, bind, LoadCookies, ret.
    destruct cookie_file as [| |data]; [done|done|]. by rewrite Hbad. }
  split; [exact E|]. split; [exact E|]. split; [by rewrite E|].
  intros Hl Hc.
  destruct (cfg_UseSystemChrome cfg) eqn:Hsys;
    [destruct (decide (Exists (fun p => executable p = true) chromePaths)) as [Hex|Hno]|].
  + destruct (NewBrowserWithConfig_system_run cfg w Hsys Hex (Hl _) (Hl _) (Hc _) (Hc _)
                (or_introl (unusable_stored_cookies Hbad)))
      as (w' & E' & _ & _ & I & L & _).
    rewrite E'. cbn [outcome world fst snd].
    rewrite I, (unusable_stored_cookies Hbad), app_nil_r.
    split_and!; [by eexists|done|].
    rewrite L, (proj1 Hwarn). rewrite !elem_of_app, !elem_of_cons. tauto.
  + assert (Hall : Forall (fun p => executable p = false) chromePaths).
    { apply Forall_forall. intros p Hp. apply not_true_is_false. intros Hx.
      apply Hno, Exists_exists. eauto. }
    destruct (NewBrowserWithConfig_fallback_run cfg w (or_intror Hall) (Hl _) (Hc _)
                (or_introl (unusable_fallback_cookies Hbad)))
      as (w' & E' & _ & _ & I & L & _).
    rewrite E'. cbn [outcome world fst snd].
    rewrite I, (unusable_fallback_cookies Hbad), app_nil_r.
    split_and!; [by eexists|done|].
    rewrite L, (proj2 Hwarn). rewrite !elem_of_app, !elem_of_cons. tauto.
  + destruct (NewBrowserWithConfig_fallback_run cfg w (or_introl Hsys) (Hl _) (Hc _)
                (or_introl (unusable_fallback_cookies Hbad)))
      as (w' & E' & _ & _ & I & L & _).
    rewrite E'. cbn [outcome world fst snd].
    rewrite I, (unusable_fallback_cookies Hbad), app_nil_r.
    split_and!; [by eexists|done|].
    rewrite L, (proj2 Hwarn). rewrite !elem_of_app, !elem_of_cons. tauto.
Qed.

End CookieTheorems.

Lemma unusable_cookie_file_is_recoverable_witness :
  let b := MkRod (OfProc 0) in
  let cfg := NewConfig true in
  @ChromeLaunch.loadCookiesForBrowser malformed_env b w_empty
    = (Done tt, set_log w_empty (log w_empty ++ [Log Warn "failed to load cookies: %v"])) ∧
  @ChromeAttach.loadCookiesForBrowser malformed_env b w_empty
    = (Done tt, set_log w_empty (log w_empty ++ [Log Warn "failed to load cookies: %v"])) ∧
  injected (world (@ChromeLaunch.loadCookiesForBrowser malformed_env b w_empty))
    = injected w_empty ∧
  ((∀ l, @launch_ok malformed_env l = true) -> (∀ e, @rod_connect malformed_env e = true) ->
   (∃ hb, outcome (@NewBrowserWithConfig malformed_env cfg w_empty) = Done hb) ∧
   injected (world (@NewBrowserWithConfig malformed_env cfg w_empty)) = injected w_empty ∧
   Log Warn "failed to load cookies: %v"
     ∈ log (world (@NewBrowserWithConfig malformed_env cfg w_empty))).
Proof.
  apply (@unusable_cookie_file_is_recoverable malformed_env
           (MkRod (OfProc 0)) (NewConfig true) w_empty).
  reflexivity.
Defined.

(** ** Provisioning the automation profile *)

Section ProvisionFacts.
Context {env : Env}.

#[local] Arguments Set_ : simpl never.

Lemma existsb_pointwise {A} (f g : A -> bool) (l : list A) :
  (∀ x, f x = g x) -> existsb f l = existsb g l.
Proof. intros Hfg. induction l as [|x l IH]; cbn; [done|]. by rewrite Hfg, IH. Qed.

Lemma prefixes_length (p q : path) : q ∈ prefixes p -> length q <= length p.
Proof.
  unfold prefixes. intros (n & -> & _)%list_elem_of_fmap.
  rewrite length_take. lia.
Qed.

Lemma prefixes_self (p : path) : p ≠ [] -> p ∈ prefixes p.
Proof.
  intros Hp. unfold prefixes. apply list_elem_of_fmap.
  exists (length p). split; [by rewrite firstn_all|].
  apply elem_of_seq. destruct p; [done|]. cbn. lia.
Qed.

Lemma parent_snoc (d : path) (x : string) : parent (d ++ [x]) = d.
Proof.
  unfold parent. rewrite length_app. cbn.
  replace (length d + 1 - 1) with (length d) by lia.
  by rewrite take_app_length.
Qed.

Lemma os_MkdirAll_run (p : path) (w : World) :
  p ≠ [] ->
  os_MkdirAll p w =
    if mkdir_ok w p
    then (Done (Ok tt), set_fs w (files w) (dirs w ∪ list_to_set (prefixes p)))
    else (Done (Err ErrOther), w).
Proof.
  intros Hp. unfold os_MkdirAll, mkdir_ok. destruct p as [|x p]; [done|].
  destruct (mkdir_fault (x :: p)); [done|].
  by destruct (existsb (is_file w) (prefixes (x :: p))).
Qed.

Lemma getUserChromeDataDir_run (w : World) :
  ChromeLaunch.getUserChromeDataDir w =
    (Done user_chrome_dir,
     set_log w (log w ++ [match user_home_dir with
                          | Some _ => Log Info "Using Chrome user data directory: %s"
                          | None => Log Warn "Failed to get user home directory: %v"
                          end])).
Proof.
  unfold ChromeLaunch.getUserChromeDataDir, user_chrome_dir, bind, os_UserHomeDir, ret.
  by destruct user_home_dir.
Qed.

Lemma automation_cookies_dir_nonempty : automation_cookies_dir ≠ [].
Proof. unfold automation_cookies_dir. by destruct automation_dir. Qed.

Lemma automation_cookies_path_not_prefix (p : path) :
  length p <= length automation_cookies_dir ->
  automation_cookies_path ∉ prefixes p.
Proof.
  intros Hp Hin%prefixes_length. unfold automation_cookies_path in Hin.
  rewrite length_app in Hin. cbn in Hin. lia.
Qed.

Lemma copyFile_run (src dst : path) (w : World) :
  ∃ r w',
    ChromeLaunch.copyFile src dst w = (Done r, w') ∧
    provisioning_frame w w' [] ∧ dirs w' = dirs w ∧
    (∀ p, p ≠ dst -> files w' !! p = files w !! p) ∧
    (∀ data, files w !! src = Some data -> src ≠ dst -> parent dst ∈ dirs w ->
       if negb (open_fault src) && negb (create_fault dst) &&
          negb (is_dir w dst) && bool_decide (copy_fault dst = None)
       then r = Ok tt ∧ files w' !! dst = Some data
       else ∃ e, r = Err e).
Proof.
  assert (Hself : provisioning_frame w w []).
  { unfold provisioning_frame. by rewrite app_nil_r. }
  unfold ChromeLaunch.copyFile, bind at 1, os_Open.
  destruct (open_fault src) eqn:Hof; cbn [negb andb].
  { eexists _, _. split; [reflexivity|]. split_and!; try done.
    intros data _ _ _. by eexists. }
  destruct (is_file w src || is_dir w src) eqn:Hsrc; cycle 1.
  { eexists _, _. split; [reflexivity|]. split_and!; try done.
    intros data Hdata _ _. unfold is_file in Hsrc. rewrite Hdata in Hsrc.
    rewrite bool_decide_true in Hsrc by done. done. }
  unfold bind at 1, os_Create.
  destruct (create_fault dst) eqn:Hcf; cbn [negb andb].
  { eexists _, _. split; [reflexivity|]. split_and!; try done.
    intros data _ _ _. by eexists. }
  destruct (is_dir w dst) eqn:Hdd; cbn [negb andb].
  { eexists _, _. split; [reflexivity|]. split_and!; try done.
    intros data _ _ _. by eexists. }
  destruct (bool_decide (parent dst = []) || is_dir w (parent dst)) eqn:Hpar; cycle 1.
  { eexists _, _. split; [reflexivity|]. split_and!; try done.
    intros data _ _ Hp. unfold is_dir in Hpar.
    rewrite (bool_decide_true _ Hp), orb_true_r in Hpar. done. }
  unfold bind at 1, File_ReadFrom. cbn [files dirs set_fs].
  destruct (decide (src = dst)) as [->|Hne].
  - rewrite lookup_insert_eq. destruct (copy_fault dst) as [n|];
      (eexists _, _; split; [reflexivity|]);
      (split_and!; [done|done| |by intros]);
      intros p Hp; cbn; by rewrite !lookup_insert_ne.
  - rewrite lookup_insert_ne by done.
    destruct (files w !! src) as [data|] eqn:Hdata.
    + destruct (copy_fault dst) as [n|] eqn:Hfault;
        (eexists _, _; split; [reflexivity|]);
        (split_and!; [done|done| |]).
      * intros p Hp; cbn; by rewrite !lookup_insert_ne.
      * intros d _ _ _. by eexists.
      * intros p Hp; cbn; by rewrite !lookup_insert_ne.
      * intros d [= <-] _ _. cbn. by rewrite lookup_insert_eq.
    + eexists _, _. split; [reflexivity|]. split_and!; [done|done| |done].
      intros p Hp; cbn; by rewrite !lookup_insert_ne.
Qed.

Lemma user_cookies_path_not_prefix :
  user_cookies_path ∉ prefixes automation_cookies_dir.
Proof.
  intros Hin%prefixes_length. revert Hin.
  unfold user_cookies_path, automation_cookies_dir, user_chrome_dir, automation_dir.
  destruct user_home_dir; rewrite ?length_app; cbn; lia.
Qed.

Lemma copyUserCookiesToAutomation_run (w : World) :
  ∃ w' ext,
    ChromeLaunch.copyUserCookiesToAutomation automation_dir w = (Done tt, w') ∧
    provisioning_frame w w' ext ∧
    (∀ p, p ≠ automation_cookies_path -> files w' !! p = files w !! p) ∧
    (user_cookies_absent w = true -> files w' = files w) ∧
    (∀ data, files w !! user_cookies_path = Some data ->
             user_cookies_path ≠ automation_cookies_path ->
       if copy_unhindered w
       then files w' !! automation_cookies_path = Some data ∧
            Log Info "Successfully copied user cookies to automation profile" ∈ ext
       else Log Warn "Failed to copy user cookies: %v" ∈ ext ∨
            Log Warn "Failed to create automation Default directory: %v" ∈ ext).
Proof.
  unfold ChromeLaunch.copyUserCookiesToAutomation. unfold bind at 1.
  rewrite getUserChromeDataDir_run.
  fold user_cookies_path. fold automation_cookies_dir. fold automation_cookies_path.
  unfold bind at 1. rewrite (os_MkdirAll_run _ _ automation_cookies_dir_nonempty).
  set (e0 := match user_home_dir with Some _ => _ | None => _ end).
  change (mkdir_ok (set_log w (log w ++ [e0])) automation_cookies_dir)
    with (mkdir_ok w automation_cookies_dir).
  unfold copy_unhindered.
  destruct (mkdir_ok w automation_cookies_dir) eqn:Hmk; cbn [andb]; cycle 1.
  { exists (set_log (set_log w (log w ++ [e0]))
              (log (set_log w (log w ++ [e0])) ++
               [Log Warn "Failed to create automation Default directory: %v"])),
           [e0; Log Warn "Failed to create automation Default directory: %v"].
    split; [reflexivity|]. split_and!; try done.
    - unfold provisioning_frame. cbn. rewrite <- app_assoc. by split_and!.
    - intros data _ _. right. rewrite !elem_of_cons. tauto. }
  pose (w1 := set_fs (set_log w (log w ++ [e0])) (files w)
                (dirs w ∪ list_to_set (prefixes automation_cookies_dir))).
  change (set_fs (set_log w (log w ++ [e0])) _ _) with w1.
  assert (Hdirs : ∀ q, q ∈ dirs w1 <-> q ∈ dirs w ∨ q ∈ prefixes automation_cookies_dir).
  { intros q. subst w1. cbn. by rewrite elem_of_union, elem_of_list_to_set. }
  assert (Hfr1 : dirs w ⊆ dirs w1) by (intros q Hq; apply Hdirs; by left).
  unfold bind at 1, os_Stat.
  assert (Hstat : is_file w1 user_cookies_path || is_dir w1 user_cookies_path
                  = is_file w user_cookies_path || is_dir w user_cookies_path).
  { f_equal. unfold is_dir. apply bool_decide_ext. rewrite Hdirs.
    pose proof user_cookies_path_not_prefix. tauto. }
  rewrite Hstat. unfold user_cookies_absent.
  destruct (copyFile_run user_cookies_path automation_cookies_path w1)
    as (r & w2 & Ecp & (P2 & C2 & I2 & B2 & R2 & _ & L2) & D2 & Foth & Fcp).
  rewrite app_nil_r in L2.
  assert (Hcopy :
    ∃ w' ext,
      (r <- ChromeLaunch.copyFile user_cookies_path automation_cookies_path ;;
       match r with
       | Ok _ => logrus_Info "Successfully copied user cookies to automation profile"
       | Err _ => logrus_Warnf "Failed to copy user cookies: %v"
       end) w1 = (Done tt, w') ∧
      provisioning_frame w w' ext ∧
      (∀ p, p ≠ automation_cookies_path -> files w' !! p = files w !! p) ∧
      (∀ data, files w !! user_cookies_path = Some data ->
               user_cookies_path ≠ automation_cookies_path ->
         if negb (open_fault user_cookies_path) &&
            negb (create_fault automation_cookies_path) &&
            negb (is_dir w automation_cookies_path) &&
            bool_decide (copy_fault automation_cookies_path = None)
         then files w' !! automation_cookies_path = Some data ∧
              Log Info "Successfully copied user cookies to automation profile" ∈ ext
         else Log Warn "Failed to copy user cookies: %v" ∈ ext ∨
              Log Warn "Failed to create automation Default directory: %v" ∈ ext)).
  { assert (Hdd : is_dir w1 automation_cookies_path = is_dir w automation_cookies_path).
    { unfold is_dir. apply bool_decide_ext. rewrite Hdirs.
      pose proof (automation_cookies_path_not_prefix automation_cookies_dir (le_n _)).
      tauto. }
    assert (Hpar : parent automation_cookies_path ∈ dirs w1).
    { unfold automation_cookies_path. rewrite parent_snoc. apply Hdirs. right.
      apply prefixes_self, automation_cookies_dir_nonempty. }
    unfold bind at 1. rewrite Ecp. destruct r as [[]|e].
    - eexists _, [e0; Log Info "Successfully copied user cookies to automation profile"].
      split; [reflexivity|]. split_and!.
      + unfold provisioning_frame. cbn. rewrite P2, C2, I2, B2, R2, D2, L2.
        subst w1. cbn. rewrite <- app_assoc. split_and!; try done.
      + intros p Hp. cbn [files set_log]. by rewrite Foth.
      + intros data Hdata Hne. specialize (Fcp data Hdata Hne Hpar).
        rewrite Hdd in Fcp.
        destruct (_ && _); [|by destruct Fcp].
        destruct Fcp as [_ Hw2]. cbn [files set_log]. split; [done|].
        rewrite !elem_of_cons. tauto.
    - eexists _, [e0; Log Warn "Failed to copy user cookies: %v"].
      split; [reflexivity|]. split_and!.
      + unfold provisioning_frame. cbn. rewrite P2, C2, I2, B2, R2, D2, L2.
        subst w1. cbn. rewrite <- app_assoc. split_and!; try done.
      + intros p Hp. cbn [files set_log]. by rewrite Foth.
      + intros data Hdata Hne. specialize (Fcp data Hdata Hne Hpar).
        rewrite Hdd in Fcp.
        destruct (_ && _); [by destruct Fcp|].
        left. rewrite !elem_of_cons. tauto. }
  destruct Hcopy as (w' & ext & E' & Fr' & Foth' & Fcp').
  destruct (stat_fault user_cookies_path) eqn:Hsf; cbn [negb andb].
  { cbn [os_IsNotExist]. exists w', ext. rewrite E'. split_and!; try done. }
  destruct (is_file w user_cookies_path || is_dir w user_cookies_path) eqn:Hex;
    cbn [negb os_IsNotExist].
  { exists w', ext. rewrite E'. split_and!; try done. }
  eexists _, [e0; Log Info "No user cookies file found to copy"].
  split; [reflexivity|]. split_and!; try done.
  - unfold provisioning_frame. subst w1. cbn. rewrite <- app_assoc. split_and!; try done.
  - intros data Hdata _. unfold is_file in Hex. rewrite Hdata in Hex.
    rewrite bool_decide_true in Hex by done. done.
Qed.

Lemma provisioning_frame_trans (w w1 w2 : World) (e1 e2 : list LogEntry) :
  provisioning_frame w w1 e1 -> provisioning_frame w1 w2 e2 ->
  provisioning_frame w w2 (e1 ++ e2).
Proof.
  intros (?&?&?&?&?&?&L1) (?&?&?&?&?&?&L2).
  unfold provisioning_frame. rewrite L2, L1, app_assoc.
  split_and!; try congruence. set_solver.
Qed.

Lemma getAutomationChromeDataDir_run (w : World) :
  ∃ w1 ext,
    ChromeLaunch.getAutomationChromeDataDir w = (Done automation_dir, w1) ∧
    files w1 = files w ∧ provisioning_frame w w1 ext ∧
    (∀ q, q ∈ dirs w1 -> q ∈ dirs w ∨ q ∈ prefixes automation_dir) ∧
    Forall (fun e => lvl e = Info ∨ msg e ≠ "Failed to copy user cookies: %v" ∧
                     msg e ≠ "Failed to create automation Default directory: %v") ext.
Proof.
  unfold ChromeLaunch.getAutomationChromeDataDir, automation_dir, bind at 1,
    os_UserHomeDir, ret.
  destruct user_home_dir as [home|].
  - set (d := (home ++ _)%list).
    assert (Hd : d ≠ []) by (subst d; by destruct home).
    unfold bind at 1. rewrite (os_MkdirAll_run d w Hd).
    destruct (mkdir_ok w d).
    + eexists _, [Log Info "Using Chrome automation data directory: %s"].
      split; [reflexivity|]. cbn. split_and!; try done.
      * unfold provisioning_frame. cbn. split_and!; try done. set_solver.
      * intros q. rewrite elem_of_union, elem_of_list_to_set. tauto.
      * repeat (apply Forall_cons; split; [first [by left | by right]|]); by apply Forall_nil.
    + eexists _, [Log Warn "Failed to create Chrome automation directory: %v";
                  Log Info "Using Chrome automation data directory: %s"].
      split; [reflexivity|]. cbn. split_and!; try done.
      * unfold provisioning_frame. cbn. rewrite <- app_assoc. by split_and!.
      * by left.
      * repeat (apply Forall_cons; split; [first [by left | by right]|]); by apply Forall_nil.
  - eexists _, [Log Warn "Failed to get user home directory: %v"].
    split; [reflexivity|]. cbn. split_and!; try done.
    + by left.
    + repeat (apply Forall_cons; split; [first [by left | by right]|]); by apply Forall_nil.
Qed.

Lemma length_user_cookies_path :
  length user_cookies_path = S (length automation_cookies_dir).
Proof.
  unfold user_cookies_path, automation_cookies_dir, user_chrome_dir, automation_dir.
  destruct user_home_dir; rewrite ?length_app; cbn; lia.
Qed.

(** Making the automation directory does not change what the copy step
    will find. *)
Lemma copy_conditions_stable (w w1 : World) :
  files w1 = files w -> dirs w ⊆ dirs w1 ->
  (∀ q, q ∈ dirs w1 -> q ∈ dirs w ∨ q ∈ prefixes automation_dir) ->
  copy_unhindered w1 = copy_unhindered w ∧
  user_cookies_absent w1 = user_cookies_absent w.
Proof.
  intros Hf Hsub Hd.
  assert (Hlong : ∀ p, S (length automation_dir) < length p ->
                       is_dir w1 p = is_dir w p).
  { intros p Hp. unfold is_dir. apply bool_decide_ext. split; [|by apply Hsub].
    intros [?|Hin%prefixes_length]%Hd; [done|lia]. }
  assert (Hfile : ∀ p, is_file w1 p = is_file w p).
  { intros p. unfold is_file. by rewrite Hf. }
  unfold copy_unhindered, user_cookies_absent, mkdir_ok.
  rewrite (existsb_pointwise _ _ _ Hfile).
  rewrite (Hlong automation_cookies_path), (Hlong user_cookies_path), !Hfile.
  - done.
  - rewrite length_user_cookies_path. unfold automation_cookies_dir.
    rewrite length_app. cbn. lia.
  - unfold automation_cookies_path, automation_cookies_dir.
    rewrite !length_app. cbn. lia.
Qed.

Lemma provision_run (w : World) :
  ∃ w' ext,
    provision w = (Done tt, w') ∧
    provisioning_frame w w' ext ∧
    (∀ p, p ≠ automation_cookies_path -> files w' !! p = files w !! p) ∧
    (user_cookies_absent w = true -> files w' = files w) ∧
    (∀ data, files w !! user_cookies_path = Some data ->
             user_cookies_path ≠ automation_cookies_path ->
       if copy_unhindered w
       then files w' !! automation_cookies_path = Some data ∧
            Log Info "Successfully copied user cookies to automation profile" ∈ ext
       else Log Warn "Failed to copy user cookies: %v" ∈ ext ∨
            Log Warn "Failed to create automation Default directory: %v" ∈ ext).
Proof.
  destruct (getAutomationChromeDataDir_run w) as (w1 & e1 & E1 & F1 & Fr1 & D1 & _).
  destruct (copyUserCookiesToAutomation_run w1) as (w2 & e2 & E2 & Fr2 & Oth2 & Abs2 & Cp2).
  assert (Hsub : dirs w ⊆ dirs w1) by (by destruct Fr1 as (_&_&_&_&_&?&_)).
  destruct (copy_conditions_stable w w1 F1 Hsub D1) as [Hcu Hab].
  exists w2, (e1 ++ e2)%list. unfold provision, bind. rewrite E1, E2.
  split; [done|]. split; [by eapply provisioning_frame_trans|].
  split; [intros p Hp; by rewrite Oth2, F1|].
  split; [intros Ha; rewrite <- Hab in Ha; by rewrite Abs2, F1|].
  intros data Hdata Hne. rewrite <- F1 in Hdata. specialize (Cp2 data Hdata Hne).
  rewrite Hcu in Cp2. destruct (copy_unhindered w).
  - destruct Cp2. split; [done|]. apply elem_of_app. by right.
  - rewrite !elem_of_app. tauto.
Qed.

(** The destination of [copyFile] afterwards, in every case. *)
Lemma copyFile_dst (src dst : path) (w : World) :
  bool_decide (parent dst = []) || is_dir w (parent dst) = true ->
  ∃ r, ChromeLaunch.copyFile src dst w =
       (Done r,
        if (is_file w src || is_dir w src) && negb (open_fault src) &&
           negb (create_fault dst) && negb (is_dir w dst)
        then set_fs w
               (<[dst := match <[dst := []]> (files w) !! src with
                         | Some data => match copy_fault dst with
                                        | Some n => take n data
                                        | None => data
                                        end
                         | None => []
                         end]> (files w)) (dirs w)
        else w).
Proof.
  intros Hp.
  unfold ChromeLaunch.copyFile, bind, os_Open, os_Create, File_ReadFrom, ret.
  destruct (open_fault src); [rewrite andb_false_r; by eexists|].
  destruct (is_file w src || is_dir w src); [|by eexists]. cbn [negb andb].
  destruct (create_fault dst); [by eexists|]. cbn [negb andb].
  destruct (is_dir w dst); [by eexists|]. cbn [negb andb].
  rewrite Hp. cbn [files dirs set_fs].
  destruct (<[dst:=[]]> (files w) !! src) as [data|].
  - destruct (copy_fault dst); eexists; unfold set_fs; cbn; by rewrite insert_insert_eq.
  - by eexists.
Qed.

(** The automation database after the copy step, in every case. *)
Lemma copyUserCookiesToAutomation_cookies (w : World) :
  files (world (ChromeLaunch.copyUserCookiesToAutomation automation_dir w))
    !! automation_cookies_path = provisioned_cookies w.
Proof.
  unfold ChromeLaunch.copyUserCookiesToAutomation. unfold bind at 1.
  rewrite getUserChromeDataDir_run.
  fold user_cookies_path. fold automation_cookies_dir. fold automation_cookies_path.
  unfold bind at 1. rewrite (os_MkdirAll_run _ _ automation_cookies_dir_nonempty).
  set (e0 := match user_home_dir with Some _ => _ | None => _ end).
  change (mkdir_ok (set_log w (log w ++ [e0])) automation_cookies_dir)
    with (mkdir_ok w automation_cookies_dir).
  unfold provisioned_cookies, copy_truncates, copy_writes.
  destruct (mkdir_ok w automation_cookies_dir) eqn:Hmk; cbn [andb]; [|done].
  pose (w1 := set_fs (set_log w (log w ++ [e0])) (files w)
                (dirs w ∪ list_to_set (prefixes automation_cookies_dir))).
  change (set_fs (set_log w (log w ++ [e0])) _ _) with w1.
  assert (Hdirs : ∀ q, q ∈ dirs w1 <-> q ∈ dirs w ∨ q ∈ prefixes automation_cookies_dir).
  { intros q. subst w1. cbn. by rewrite elem_of_union, elem_of_list_to_set. }
  assert (Hex : is_file w1 user_cookies_path || is_dir w1 user_cookies_path
                = is_file w user_cookies_path || is_dir w user_cookies_path).
  { f_equal. unfold is_dir. apply bool_decide_ext. rewrite Hdirs.
    pose proof user_cookies_path_not_prefix. tauto. }
  assert (Hdd : is_dir w1 automation_cookies_path = is_dir w automation_cookies_path).
  { unfold is_dir. apply bool_decide_ext. rewrite Hdirs.
    pose proof (automation_cookies_path_not_prefix automation_cookies_dir (le_n _)).
    tauto. }
  assert (Hpar : bool_decide (parent automation_cookies_path = [])
                 || is_dir w1 (parent automation_cookies_path) = true).
  { apply orb_true_iff. right. unfold is_dir. apply bool_decide_eq_true.
    unfold automation_cookies_path. rewrite parent_snoc. apply Hdirs. right.
    apply prefixes_self, automation_cookies_dir_nonempty. }
  destruct (copyFile_dst user_cookies_path automation_cookies_path w1 Hpar) as (r & Ecp).
  rewrite Hex, Hdd in Ecp.
  assert (Hcopy :
    files (world ((r <- ChromeLaunch.copyFile user_cookies_path automation_cookies_path ;;
                   match r with
                   | Ok _ => logrus_Info "Successfully copied user cookies to automation profile"
                   | Err _ => logrus_Warnf "Failed to copy user cookies: %v"
                   end) w1)) !! automation_cookies_path
    = if (is_file w user_cookies_path || is_dir w user_cookies_path) &&
         negb (open_fault user_cookies_path) &&
         negb (create_fault automation_cookies_path) &&
         negb (is_dir w automation_cookies_path)
      then Some match <[automation_cookies_path := []]> (files w) !! user_cookies_path with
                | Some data => match copy_fault automation_cookies_path with
                               | Some n => take n data
                               | None => data
                               end
                | None => []
                end
      else files w !! automation_cookies_path).
  { unfold bind. rewrite Ecp.
    destruct (_ && _ && _ && _); destruct r as [[]|e]; cbn; by rewrite ?lookup_insert_eq. }
  unfold bind at 1, os_Stat. rewrite Hex.
  destruct (stat_fault user_cookies_path).
  { cbn [os_IsNotExist]. exact Hcopy. }
  destruct (is_file w user_cookies_path || is_dir w user_cookies_path) eqn:Hsrc.
  { cbn [os_IsNotExist]. exact Hcopy. }
  done.
Qed.

Lemma copy_truncates_stable (w w1 : World) :
  files w1 = files w -> dirs w ⊆ dirs w1 ->
  (∀ q, q ∈ dirs w1 -> q ∈ dirs w ∨ q ∈ prefixes automation_dir) ->
  provisioned_cookies w1 = provisioned_cookies w.
Proof.
  intros Hf Hsub Hd.
  assert (Hlong : ∀ p, S (length automation_dir) < length p ->
                       is_dir w1 p = is_dir w p).
  { intros p Hp. unfold is_dir. apply bool_decide_ext. split; [|by apply Hsub].
    intros [?|Hin%prefixes_length]%Hd; [done|lia]. }
  assert (Hfile : ∀ p, is_file w1 p = is_file w p).
  { intros p. unfold is_file. by rewrite Hf. }
  unfold provisioned_cookies, copy_truncates, copy_writes, mkdir_ok.
  rewrite (existsb_pointwise _ _ _ Hfile).
  rewrite (Hlong automation_cookies_path), (Hlong user_cookies_path), !Hfile, Hf.
  - done.
  - rewrite length_user_cookies_path. unfold automation_cookies_dir.
    rewrite length_app. cbn. lia.
  - unfold automation_cookies_path, automation_cookies_dir.
    rewrite !length_app. cbn. lia.
Qed.

(** The automation database after provisioning, in every case. *)
Lemma provision_cookies (w : World) :
  files (world (provision w)) !! automation_cookies_path = provisioned_cookies w.
Proof.
  destruct (getAutomationChromeDataDir_run w) as (w1 & e1 & E1 & F1 & Fr1 & D1 & _).
  assert (Hsub : dirs w ⊆ dirs w1) by (by destruct Fr1 as (_&_&_&_&_&?&_)).
  rewrite <- (copy_truncates_stable w w1 F1 Hsub D1).
  rewrite <- copyUserCookiesToAutomation_cookies.
  destruct (copyUserCookiesToAutomation_run w1) as (w2 & e2 & E2 & _).
  unfold provision, bind. by rewrite E1, E2.
Qed.

End ProvisionFacts.

(** ** The isolated launch *)

Section LaunchFacts.
Context {env : Env}.

#[local] Arguments Set_ : simpl never.



Lemma provision_then {A} (k : path -> M A) (w : World) :
  (userDataDir <- ChromeLaunch.getAutomationChromeDataDir ;;
   ChromeLaunch.copyUserCookiesToAutomation userDataDir ;;
   k userDataDir) w
  = k automation_dir (world (provision w)).
Proof.
  destruct (getAutomationChromeDataDir_run w) as (w1 & e1 & E1 & _).
  destruct (copyUserCookiesToAutomation_run w1) as (w2 & e2 & E2 & _).
  unfold provision, bind. by rewrite E1, E2.
Qed.

(** [NewChromeBrowser] of the launching version, once a binary is found:
    provisioning, then the launch, then what follows it. *)
Lemma NewChromeBrowser_launch_run (headless : bool) (w : World) :
  Exists (fun p => executable p = true) chromePaths ->
  ChromeLaunch.NewChromeBrowser headless w =
    (url <- MustLaunch (isolated_launcher headless located_chrome automation_dir) ;;
     after_launch (isolated_launcher headless located_chrome automation_dir) url)
      (world (provision (set_log w (log w ++ [Log Info "Starting Chrome from: %s"])))).
Proof.
  intros Hex. destruct (findChromePath_some w Hex) as (cp & Ecp & Hne & _).
  rewrite findChromePath_run in Ecp. fold located_chrome in Ecp. injection Ecp as <-.
  unfold ChromeLaunch.NewChromeBrowser. unfold bind at 1.
  rewrite findChromePath_run. fold located_chrome. rewrite Hne.
  unfold bind at 1, logrus_Infof at 1, logrus at 1.
  exact (provision_then
           (fun d => url <- MustLaunch (isolated_launcher headless located_chrome d) ;;
                     after_launch (isolated_launcher headless located_chrome d) url) _).
Qed.

End LaunchFacts.

Section LaunchTheorems.
Context {env : Env}.


End LaunchTheorems.



Section ProvisionTheorems.
Context {env : Env}.

(** C8, as the code has it.  Every run of the provisioning step, hence
    also a second one on an automation directory that exists, returns
    normally; it removes no directory and changes no file other than the
    automation profile's cookie database.  That database is left as it
    was whenever the copy does not get as far as creating the
    destination: the [Default] directory cannot be made, nothing is at
    the user's path, or opening the source or creating the destination
    fails.  Otherwise what it held is replaced by what the copy writes:
    the user's bytes when the copy runs to its end, their first bytes
    when the write breaks off, nothing when source and destination are
    one path or the source is a directory. *)
Theorem provision_again_touches_only_cookie_database (w : World) :
  outcome (provision w) = Done tt ∧
  procs (world (provision w)) = procs w ∧
  conns (world (provision w)) = conns w ∧
  dirs w ⊆ dirs (world (provision w)) ∧
  (∀ p, p ≠ automation_cookies_path ->
        files (world (provision w)) !! p = files w !! p) ∧
  files (world (provision w)) !! automation_cookies_path
    = (if copy_truncates w then Some (copy_writes w)
       else files w !! automation_cookies_path) ∧
  (user_cookies_absent w = true -> files (world (provision w)) = files w) ∧
  (∀ data, files w !! user_cookies_path = Some data ->
           user_cookies_path ≠ automation_cookies_path ->
     copy_writes w = match copy_fault automation_cookies_path with
                     | Some n => take n data
                     | None => data
                     end ∧
     (copy_unhindered w = true ->
      files (world (provision w)) !! automation_cookies_path = Some data)) ∧
  (user_cookies_path = automation_cookies_path -> copy_writes w = []).
Proof.
  pose proof (provision_cookies w) as Hpc.
  destruct (provision_run w)
    as (w' & ext & E & (P & C & _ & _ & _ & D & _) & Oth & Abs & Cp).
  rewrite E in *. cbn [outcome world fst snd] in *. split_and!; try done.
  - intros data Hdata Hne. split.
    + unfold copy_writes. by rewrite lookup_insert_ne, Hdata.
    + intros Hcu. specialize (Cp data Hdata Hne). rewrite Hcu in Cp. by destruct Cp.
  - intros Heq. unfold copy_writes. rewrite Heq, lookup_insert_eq.
    destruct (copy_fault automation_cookies_path) as [n|]; [|done]. by destruct n.
Qed.

End ProvisionTheorems.

(** C8 as stated fails.  After a first provisioning the automation
    Chrome has written its own cookie database; the directory exists.
    The second provisioning returns normally but replaces that database
    by the user's: the automation profile's own cookie data is gone. *)
Lemma provision_again_overwrites_automation_cookies :
  is_dir w_second (@automation_cookies_dir chrome_env) = true ∧
  files w_second !! @automation_cookies_path chrome_env = Some auto_data ∧
  outcome (@provision chrome_env w_second) = Done tt ∧
  files (world (@provision chrome_env w_second)) !! @automation_cookies_path chrome_env
    = Some user_data ∧
  user_data ≠ auto_data.
Proof.
  split; [by vm_compute|]. split; [by vm_compute|]. split; [by vm_compute|].
  split; [by vm_compute|]. discriminate.
Qed.

(** ** Further properties: [copyFile] *)

Lemma copyFile_opened {env : Env} (src dst : path) (w : World) :
  open_fault src = false ->
  is_file w src || is_dir w src = true ->
  can_create w dst = true ->
  ChromeLaunch.copyFile src dst w =
    match <[dst := []]> (files w) !! src with
    | None => (Done (Err ErrOther), set_fs w (<[dst := []]> (files w)) (dirs w))
    | Some data =>
        match copy_fault dst with
        | Some n =>
            (Done (Err ErrOther), set_fs w (<[dst := take n data]> (files w)) (dirs w))
        | None => (Done (Ok tt), set_fs w (<[dst := data]> (files w)) (dirs w))
        end
    end.
Proof.
  unfold can_create. intros Ho Hs Hc.
  apply andb_prop in Hc as [[Hcf Hd]%andb_prop Hp].
  apply negb_true_iff in Hcf, Hd.
  unfold ChromeLaunch.copyFile, bind, os_Open, os_Create, File_ReadFrom, ret.
  rewrite Ho, Hs, Hcf, Hd, Hp. cbn [files dirs set_fs].
  destruct (<[dst:=[]]> (files w) !! src) as [data|]; [|done].
  destruct (copy_fault dst); unfold set_fs; cbn; by rewrite insert_insert_eq.
Qed.

Lemma copyFile_same_in_both_versions {env : Env} (src dst : path) :
  ChromeAttach.copyFile src dst = ChromeLaunch.copyFile src dst.
Proof. reflexivity. Qed.

(** X1. [copyFile] from a source that does not exist returns an error
    and leaves the whole world as it was: the destination is neither
    created nor truncated, because the source is opened first. *)
Theorem copyFile_missing_source {env : Env} (src dst : path) (w : World) :
  files w !! src = None ->
  src ∉ dirs w ->
  (∃ e, ChromeLaunch.copyFile src dst w = (Done (Err e), w)) ∧
  (∃ e, ChromeAttach.copyFile src dst w = (Done (Err e), w)).
Proof.
  intros Hf Hd.
  assert (E : ∃ e, ChromeLaunch.copyFile src dst w = (Done (Err e), w)).
  { unfold ChromeLaunch.copyFile, bind, os_Open, is_file, is_dir, ret.
    rewrite Hf, (bool_decide_false _ Hd).
    rewrite bool_decide_false by (by intros [? ?]).
    destruct (open_fault src); by eexists. }
  split; exact E.
Qed.

Lemma copyFile_missing_source_witness :
  (∃ e, @ChromeLaunch.copyFile chrome_env ["nowhere"] ["a"] w_files = (Done (Err e), w_files)) ∧
  (∃ e, @ChromeAttach.copyFile chrome_env ["nowhere"] ["a"] w_files = (Done (Err e), w_files)).
Proof.
  apply (@copyFile_missing_source chrome_env ["nowhere"] ["a"] w_files).
  - by vm_compute.
  - apply (proj1 (bool_decide_eq_false _)). by vm_compute.
Defined.

(** X2. When the source can be opened, the destination created and the
    copy runs to its end, [copyFile] returns nil and the new world
    differs from the old one in exactly one place: the destination holds
    the bytes of the source.  The source and every other file are
    unchanged, whatever the destination held before. *)
Theorem copyFile_copies_bytes {env : Env} (src dst : path) (data : bytes) (w : World) :
  files w !! src = Some data ->
  src ≠ dst ->
  open_fault src = false ->
  can_create w dst = true ->
  copy_fault dst = None ->
  ChromeLaunch.copyFile src dst w
    = (Done (Ok tt), set_fs w (<[dst := data]> (files w)) (dirs w)) ∧
  files (world (ChromeLaunch.copyFile src dst w)) !! dst = Some data ∧
  files (world (ChromeLaunch.copyFile src dst w)) !! src = Some data ∧
  (∀ p, p ≠ dst -> files (world (ChromeLaunch.copyFile src dst w)) !! p = files w !! p).
Proof.
  intros Hs Hne Ho Hc Hcp.
  assert (E : ChromeLaunch.copyFile src dst w
                = (Done (Ok tt), set_fs w (<[dst := data]> (files w)) (dirs w))).
  { rewrite copyFile_opened; [|done| |done].
    - by rewrite lookup_insert_ne, Hs, Hcp.
    - unfold is_file. rewrite Hs. by rewrite bool_decide_true. }
  rewrite E. cbn [world snd files set_fs]. split_and!; [done| | |].
  - by rewrite lookup_insert_eq.
  - by rewrite lookup_insert_ne.
  - intros p Hp. by rewrite lookup_insert_ne.
Qed.

Lemma copyFile_copies_bytes_witness :
  @ChromeLaunch.copyFile chrome_env ["a"] ["d"; "b"] w_files
    = (Done (Ok tt), set_fs w_files (<[ ["d"; "b"] := user_data]> (files w_files)) (dirs w_files)) ∧
  files (world (@ChromeLaunch.copyFile chrome_env ["a"] ["d"; "b"] w_files)) !! ["d"; "b"]
    = Some user_data ∧
  files (world (@ChromeLaunch.copyFile chrome_env ["a"] ["d"; "b"] w_files)) !! ["a"]
    = Some user_data ∧
  (∀ p, p ≠ ["d"; "b"] ->
        files (world (@ChromeLaunch.copyFile chrome_env ["a"] ["d"; "b"] w_files)) !! p
          = files w_files !! p).
Proof.
  apply (@copyFile_copies_bytes chrome_env ["a"] ["d"; "b"] user_data w_files).
  - by vm_compute.
  - discriminate.
  - reflexivity.
  - by vm_compute.
  - reflexivity.
Defined.

(** X3. Copying a file onto itself empties it: [os.Create] truncates
    the file that [os.Open] has just opened, so nothing is left to read,
    and [copyFile] still returns nil. *)
Theorem copyFile_onto_itself_empties {env : Env} (p : path) (data : bytes) (w : World) :
  files w !! p = Some data ->
  open_fault p = false ->
  can_create w p = true ->
  copy_fault p = None ->
  ChromeLaunch.copyFile p p w = (Done (Ok tt), set_fs w (<[p := []]> (files w)) (dirs w)) ∧
  files (world (ChromeLaunch.copyFile p p w)) !! p = Some [].
Proof.
  intros Hs Ho Hc Hcp.
  assert (E : ChromeLaunch.copyFile p p w
                = (Done (Ok tt), set_fs w (<[p := []]> (files w)) (dirs w))).
  { rewrite copyFile_opened; [|done| |done].
    - by rewrite lookup_insert_eq, Hcp.
    - unfold is_file. rewrite Hs. by rewrite bool_decide_true. }
  rewrite E. cbn [world snd files set_fs]. split; [done|]. by rewrite lookup_insert_eq.
Qed.

Lemma copyFile_onto_itself_empties_witness :
  @ChromeLaunch.copyFile chrome_env ["a"] ["a"] w_files
    = (Done (Ok tt), set_fs w_files (<[ ["a"] := []]> (files w_files)) (dirs w_files)) ∧
  files (world (@ChromeLaunch.copyFile chrome_env ["a"] ["a"] w_files)) !! ["a"] = Some [].
Proof.
  apply (@copyFile_onto_itself_empties chrome_env ["a"] user_data w_files).
  - by vm_compute.
  - reflexivity.
  - by vm_compute.
  - reflexivity.
Defined.

(** X4. A copy that breaks off after [n] bytes returns the error, and
    the destination is left with the first [n] bytes of the source: the
    content it held before is lost, since the destination is truncated
    before the first byte is read.  The source is unchanged. *)
Theorem copyFile_interrupted_loses_old_content {env : Env}
    (src dst : path) (data old : bytes) (n : nat) (w : World) :
  files w !! src = Some data ->
  files w !! dst = Some old ->
  src ≠ dst ->
  open_fault src = false ->
  can_create w dst = true ->
  copy_fault dst = Some n ->
  outcome (ChromeLaunch.copyFile src dst w) = Done (Err ErrOther) ∧
  files (world (ChromeLaunch.copyFile src dst w)) !! dst = Some (take n data) ∧
  files (world (ChromeLaunch.copyFile src dst w)) !! src = Some data.
Proof.
  intros Hs _ Hne Ho Hc Hcp.
  rewrite copyFile_opened; [|done| |done].
  - rewrite lookup_insert_ne, Hs, Hcp by done. cbn [outcome world fst snd files set_fs].
    by rewrite lookup_insert_eq, lookup_insert_ne.
  - unfold is_file. rewrite Hs. by rewrite bool_decide_true.
Qed.

Lemma copyFile_interrupted_loses_old_content_witness :
  outcome (@ChromeLaunch.copyFile short_write_env ["a"] ["d"; "b"] w_files)
    = Done (Err ErrOther) ∧
  files (world (@ChromeLaunch.copyFile short_write_env ["a"] ["d"; "b"] w_files)) !! ["d"; "b"]
    = Some (take 1 user_data) ∧
  files (world (@ChromeLaunch.copyFile short_write_env ["a"] ["d"; "b"] w_files)) !! ["a"]
    = Some user_data.
Proof.
  apply (@copyFile_interrupted_loses_old_content short_write_env
           ["a"] ["d"; "b"] user_data auto_data 1 w_files).
  - by vm_compute.
  - by vm_compute.
  - discriminate.
  - reflexivity.
  - by vm_compute.
  - reflexivity.
Defined.

(** ** Further properties: attaching to a running Chrome *)

(** X5. When some port can be attached, [NewChromeBrowser] of the
    attaching version returns a handle on the lowest-indexed such port
    whose launcher is nil; it spawns no process, injects no cookie,
    touches no file and logs one line.  Its [headless] argument plays no
    part: an attached browser keeps the mode it was started with. *)
Theorem NewChromeBrowser_attach_owns_no_process {env : Env}
    (headless : bool) (w : World) (i : nat) (port : string) :
  ChromeAttach.ports !! i = Some port ->
  attachable port = true ->
  (∀ (j : nat) (q : string),
      j < i -> ChromeAttach.ports !! j = Some q -> attachable q = false) ->
  ∃ w',
    ChromeAttach.NewChromeBrowser headless w
      = (Done (Some (MkChrome (MkRod (AtURL (control_url port))) None)), w') ∧
    ChromeAttach.NewChromeBrowser (negb headless) w
      = ChromeAttach.NewChromeBrowser headless w ∧
    procs w' = procs w ∧ injected w' = injected w ∧
    files w' = files w ∧ dirs w' = dirs w ∧
    conns w' = (conns w ++ [AtURL (control_url port)])%list ∧
    log w' = (log w ++ [Log Info "Connected to your current Chrome - will create new tab with your current profile"])%list.
Proof.
  intros Hi Hport Hbefore.
  assert (Hpre : Forall (fun p => attachable p = false) (take i ChromeAttach.ports)).
  { apply Forall_lookup_2. intros j q Hj.
    apply lookup_take_Some in Hj as [Hj ?]. eauto. }
  destruct (connect_range_skip (take i ChromeAttach.ports)
              (port :: drop (S i) ChromeAttach.ports) w Hpre)
    as (w1 & E1 & _ & C1 & (P1 & F1 & D1 & L1 & I1 & _)).
  destruct (connect_range_hit port (drop (S i) ChromeAttach.ports) w1 Hport)
    as (w2 & E2 & _ & C2 & (P2 & F2 & D2 & L2 & I2 & _)).
  rewrite (take_drop_middle _ i port Hi) in E1.
  unfold ChromeAttach.NewChromeBrowser, bind at 1, ChromeAttach.connectToExistingChrome.
  rewrite E1, E2.
  eexists. split; [reflexivity|]. split; [reflexivity|]. cbn.
  rewrite P2, P1, I2, I1, F2, F1, D2, D1, C2, C1, L2, L1. done.
Qed.

Lemma NewChromeBrowser_attach_owns_no_process_witness :
  ∃ w',
    @ChromeAttach.NewChromeBrowser port9223_env true w_empty
      = (Done (Some (MkChrome (MkRod (AtURL (control_url "9223"))) None)), w') ∧
    @ChromeAttach.NewChromeBrowser port9223_env (negb true) w_empty
      = @ChromeAttach.NewChromeBrowser port9223_env true w_empty ∧
    procs w' = procs w_empty ∧ injected w' = injected w_empty ∧
    files w' = files w_empty ∧ dirs w' = dirs w_empty ∧
    conns w' = (conns w_empty ++ [AtURL (control_url "9223")])%list ∧
    log w' = (log w_empty ++ [Log Info "Connected to your current Chrome - will create new tab with your current profile"])%list.
Proof.
  apply (@NewChromeBrowser_attach_owns_no_process port9223_env true w_empty 1 "9223").
  - reflexivity.
  - reflexivity.
  - intros j q Hj Hq. destruct j as [|j]; [|lia].
    injection Hq as <-. reflexivity.
Defined.

Lemma total_timeout_probes {env : Env} (ps : list string) :
  total_timeout (map probe ps) = (2 * ChromeAttach.Second * Z.of_nat (length ps))%Z.
Proof.
  induction ps as [|p ps IH]; [done|].
  cbn [map total_timeout foldr length]. fold (total_timeout (map probe ps)).
  rewrite IH. cbn [probe snd]. lia.
Qed.

Lemma connect_range_requests {env : Env} (ps : list string) (w : World) :
  ∃ k, k <= length ps ∧ (ps ≠ [] -> 1 <= k) ∧
       outcome (ChromeAttach.connect_range ps w) ≠ Exited ∧
       outcome (ChromeAttach.connect_range ps w) ≠ Panicked ∧
       requests (world (ChromeAttach.connect_range ps w))
         = (requests w ++ map probe (take k ps))%list.
Proof.
  revert w. induction ps as [|p ps IH]; intros w.
  - exists 0. cbn. rewrite app_nil_r. split_and!; done.
  - destruct (attachable p) eqn:Hp.
    + destruct (connect_range_hit p ps w Hp) as (w1 & E & R & _).
      exists 1. rewrite E. cbn [outcome world fst snd take map length].
      rewrite take_0. split_and!; try done; lia.
    + destruct (connect_range_skip_one p ps w Hp) as (w1 & E & R & _).
      destruct (IH w1) as (k & Hk & _ & Ho1 & Ho2 & Hr).
      exists (S k). rewrite E, Hr, R. cbn [take map length].
      rewrite <- app_assoc. split_and!; try done; lia.
Qed.

(** X6. Whatever answers on the three ports, [connectToExistingChrome]
    returns to its caller (it neither exits nor panics) after at least
    one and at most three version requests, made in the order of the
    port list; as each request carries the client's two-second timeout,
    the timeouts of one call add up to at most six seconds. *)
Theorem connectToExistingChrome_bounded_wait {env : Env} (w : World) :
  ∃ k, 1 <= k <= 3 ∧
    outcome (ChromeAttach.connectToExistingChrome w) ≠ Exited ∧
    outcome (ChromeAttach.connectToExistingChrome w) ≠ Panicked ∧
    requests (world (ChromeAttach.connectToExistingChrome w))
      = (requests w ++ map probe (take k ChromeAttach.ports))%list ∧
    (total_timeout (map probe (take k ChromeAttach.ports)) <= 6 * 1000000000)%Z.
Proof.
  destruct (connect_range_requests ChromeAttach.ports w) as (k & Hk & Hk1 & Ho1 & Ho2 & Hr).
  exists k. cbn [ChromeAttach.ports length] in Hk.
  split; [split; [by apply Hk1|done]|].
  split; [done|]. split; [done|]. split; [exact Hr|].
  rewrite total_timeout_probes, length_take. unfold ChromeAttach.Second.
  cbn [ChromeAttach.ports length]. lia.
Qed.

(** ** Further properties: the orchestrator and the cookie file *)

(** X7. With [UseSystemChrome] unset, [NewBrowserWithConfig] does not
    look for Chrome at all: whether or not one is installed, it spawns
    exactly one process, from the library's default launcher with the
    configured headless mode, hands back the browser connected to it,
    injects into it the cookies the library takes from the cookie file,
    and writes no line about the system Chrome. *)
Theorem NewBrowserWithConfig_without_system_chrome {env : Env} (cfg : Config) (w : World) :
  cfg_UseSystemChrome cfg = false ->
  launch_ok (default_launcher (cfg_Headless cfg)) = true ->
  rod_connect (OfProc (length (procs w))) = true ->
  (fallback_cookies = None ∨ set_cookies_ok (OfProc (length (procs w))) = true) ->
  outcome (NewBrowserWithConfig cfg w)
    = Done (MkHB (MkRod (OfProc (length (procs w))))
                 (default_launcher (cfg_Headless cfg))) ∧
  l_headless (default_launcher (cfg_Headless cfg)) = cfg_Headless cfg ∧
  l_bin (default_launcher (cfg_Headless cfg)) = EmptyString ∧
  procs (world (NewBrowserWithConfig cfg w))
    = (procs w ++ [MkProc (default_launcher (cfg_Headless cfg)) (files w)])%list ∧
  injected (world (NewBrowserWithConfig cfg w))
    = (injected w ++ match fallback_cookies with
                     | Some cs => [(OfProc (length (procs w)), cs)]
                     | None => []
                     end)%list ∧
  log (world (NewBrowserWithConfig cfg w)) = (log w ++ fallback_cookie_log)%list.
Proof.
  intros Hcfg Hl Hc Hs.
  destruct (NewBrowserWithConfig_fallback_run cfg w (or_introl Hcfg) Hl Hc Hs)
    as (w' & E & P & _ & I & L & _).
  rewrite E. cbn [outcome world fst snd]. rewrite Hcfg in L.
  by split_and!.
Qed.

Lemma NewBrowserWithConfig_without_system_chrome_witness :
  let cfg := MkConfig true EmptyString EmptyString false in
  outcome (@NewBrowserWithConfig cookie_env cfg w_empty)
    = Done (MkHB (MkRod (OfProc (length (procs w_empty))))
                 (default_launcher (cfg_Headless cfg))) ∧
  l_headless (default_launcher (cfg_Headless cfg)) = cfg_Headless cfg ∧
  l_bin (default_launcher (cfg_Headless cfg)) = EmptyString ∧
  procs (world (@NewBrowserWithConfig cookie_env cfg w_empty))
    = (procs w_empty ++ [MkProc (default_launcher (cfg_Headless cfg)) (files w_empty)])%list ∧
  injected (world (@NewBrowserWithConfig cookie_env cfg w_empty))
    = (injected w_empty ++ match @fallback_cookies cookie_env with
                           | Some cs => [(OfProc (length (procs w_empty)), cs)]
                           | None => []
                           end)%list ∧
  log (world (@NewBrowserWithConfig cookie_env cfg w_empty))
    = (log w_empty ++ @fallback_cookie_log cookie_env)%list.
Proof.
  intros cfg. subst cfg.
  apply (@NewBrowserWithConfig_without_system_chrome cookie_env
           (MkConfig true EmptyString EmptyString false) w_empty).
  - reflexivity.
  - reflexivity.
  - reflexivity.
  - right. reflexivity.
Defined.

(** X8. When the system Chrome is found but cannot be started,
    [NewBrowserWithConfig] panics in [MustLaunch]: it does not fall back
    to the default browser, and no process and no connection are left
    behind. *)
Theorem NewBrowserWithConfig_system_launch_failure_panics {env : Env}
    (cfg : Config) (w : World) :
  cfg_UseSystemChrome cfg = true ->
  Exists (fun p => executable p = true) chromePaths ->
  launch_ok (system_launcher cfg located_chrome) = false ->
  outcome (NewBrowserWithConfig cfg w) = Panicked ∧
  procs (world (NewBrowserWithConfig cfg w)) = procs w ∧
  conns (world (NewBrowserWithConfig cfg w)) = conns w ∧
  injected (world (NewBrowserWithConfig cfg w)) = injected w.
Proof.
  intros Hcfg Hex Hl.
  destruct (findChromePath_some w Hex) as (cp & Ecp & Hne & _).
  rewrite findChromePath_run in Ecp. fold located_chrome in Ecp. injection Ecp as <-.
  assert (E : NewBrowserWithConfig cfg w =
              (Panicked,
               set_log w (log w ++ [Log Info "Using system Chrome";
                                    Log Info "Found Chrome at: %s"]))).
  { unfold NewBrowserWithConfig. rewrite Hcfg.
    unfold bind at 1. unfold isSystemChromeAvailable, bind at 1.
    rewrite findChromePath_run. fold located_chrome. unfold ret at 1.
    rewrite Hne. cbn [negb].
    unfold bind at 1, logrus_Info at 1, logrus at 1.
    unfold bind at 1. rewrite findChromePath_run. fold located_chrome.
    rewrite Hne. cbn [negb].
    unfold bind at 1, bind at 1, logrus_Infof at 1, logrus at 1, ret at 1.
    fold (system_launcher cfg located_chrome).
    unfold bind at 1, MustLaunch at 1. rewrite Hl.
    unfold set_log. cbn. by rewrite <- app_assoc. }
  by rewrite E.
Qed.

Lemma NewBrowserWithConfig_system_launch_failure_panics_witness :
  outcome (@NewBrowserWithConfig no_launch_env (NewConfig true) w_empty) = Panicked ∧
  procs (world (@NewBrowserWithConfig no_launch_env (NewConfig true) w_empty)) = procs w_empty ∧
  conns (world (@NewBrowserWithConfig no_launch_env (NewConfig true) w_empty)) = conns w_empty ∧
  injected (world (@NewBrowserWithConfig no_launch_env (NewConfig true) w_empty))
    = injected w_empty.
Proof.
  apply (@NewBrowserWithConfig_system_launch_failure_panics no_launch_env
           (NewConfig true) w_empty).
  - reflexivity.
  - apply Exists_cons_hd. reflexivity.
  - reflexivity.
Defined.

(** X9. When the cookie file parses to a list of cookies,
    [loadCookiesForBrowser] hands exactly that list, once, to the given
    browser and logs the success at debug level; if the browser rejects
    the cookies, [MustSetCookies] panics and nothing is injected or
    logged.  The two versions of the function agree. *)
Theorem loadCookiesForBrowser_injects_or_panics {env : Env}
    (b : RodBrowser) (cs : list Cookie) (w : World) :
  stored_cookies = Some cs ->
  ChromeAttach.loadCookiesForBrowser b w = ChromeLaunch.loadCookiesForBrowser b w ∧
  ChromeLaunch.loadCookiesForBrowser b w =
    if set_cookies_ok (control b)
    then (Done tt,
          set_log (set_injected w (injected w ++ [(control b, cs)]))
                  (log w ++ [Log Debug "loaded %d cookies from file successfully"]))
    else (Panicked, w).
Proof.
  unfold stored_cookies. intros Hs. split; [reflexivity|].
  unfold ChromeLaunch.loadCookiesForBrowser, bind, LoadCookies, ret, json_Unmarshal,
    MustSetCookies.
  destruct cookie_file as [| |data]; [done|done|].
  rewrite Hs. cbn beta iota. rewrite Hs. by destruct (set_cookies_ok (control b)).
Qed.

Lemma loadCookiesForBrowser_injects_or_panics_witness :
  let b := MkRod (OfProc 0) in
  @ChromeAttach.loadCookiesForBrowser cookie_env b w_empty
    = @ChromeLaunch.loadCookiesForBrowser cookie_env b w_empty ∧
  @ChromeLaunch.loadCookiesForBrowser cookie_env b w_empty =
    if @set_cookies_ok cookie_env (control b)
    then (Done tt,
          set_log (set_injected w_empty (injected w_empty ++ [(control b, [session_cookie])]))
                  (log w_empty ++ [Log Debug "loaded %d cookies from file successfully"]))
    else (Panicked, w_empty).
Proof.
  intros b. subst b.
  apply (@loadCookiesForBrowser_injects_or_panics cookie_env
           (MkRod (OfProc 0)) [session_cookie] w_empty).
  reflexivity.
Defined.

(** ** Further properties: the automation profile *)

Lemma getAutomationChromeDataDir_dirs {env : Env} (w : World) :
  ∃ w1,
    ChromeLaunch.getAutomationChromeDataDir w = (Done automation_dir, w1) ∧
    files w1 = files w ∧ procs w1 = procs w ∧
    dirs w1 = (if match user_home_dir with
                  | Some _ => mkdir_ok w automation_dir
                  | None => false
                  end
               then dirs w ∪ list_to_set (prefixes automation_dir)
               else dirs w) ∧
    (match user_home_dir with
     | Some _ => mkdir_ok w automation_dir
     | None => true
     end = false ->
     Log Warn "Failed to create Chrome automation directory: %v" ∈ log w1).
Proof.
  unfold ChromeLaunch.getAutomationChromeDataDir, automation_dir, bind at 1,
    os_UserHomeDir, ret.
  destruct user_home_dir as [home|].
  - set (d := (home ++ _)%list).
    assert (Hd : d ≠ []) by (subst d; by destruct home).
    unfold bind at 1. rewrite (os_MkdirAll_run d w Hd).
    destruct (mkdir_ok w d).
    + eexists. split; [reflexivity|]. cbn. by split_and!.
    + eexists. split; [reflexivity|]. cbn. split_and!; try done.
      intros _. rewrite !elem_of_app, !elem_of_cons. tauto.
  - eexists. split; [reflexivity|]. cbn. by split_and!.
Qed.

(** X10. [getAutomationChromeDataDir] returns the automation path
    whether or not the directory could be made: a failure of
    [os.MkdirAll] is only logged.  It changes no file and removes no
    directory; with an unknown home directory it returns the empty path
    and creates nothing; when [os.MkdirAll] succeeds the directory
    exists afterwards; and calling it a second time changes no
    directory. *)
Theorem getAutomationChromeDataDir_swallows_mkdir_error {env : Env} (w : World) :
  ∃ w1,
    ChromeLaunch.getAutomationChromeDataDir w = (Done automation_dir, w1) ∧
    ChromeAttach.getAutomationChromeDataDir w = (Done automation_dir, w1) ∧
    files w1 = files w ∧ dirs w ⊆ dirs w1 ∧
    (user_home_dir = None -> automation_dir = [] ∧ dirs w1 = dirs w) ∧
    (user_home_dir ≠ None -> mkdir_ok w automation_dir = true ->
       automation_dir ∈ dirs w1) ∧
    (user_home_dir ≠ None -> mkdir_ok w automation_dir = false ->
       dirs w1 = dirs w ∧
       Log Warn "Failed to create Chrome automation directory: %v" ∈ log w1) ∧
    (∃ w2, ChromeLaunch.getAutomationChromeDataDir w1 = (Done automation_dir, w2) ∧
           dirs w2 = dirs w1 ∧ files w2 = files w1).
Proof.
  destruct (getAutomationChromeDataDir_dirs w) as (w1 & E1 & F1 & P1 & D1 & W1).
  destruct (getAutomationChromeDataDir_dirs w1) as (w2 & E2 & F2 & P2 & D2 & _).
  assert (Hmk : mkdir_ok w1 automation_dir = mkdir_ok w automation_dir).
  { unfold mkdir_ok. f_equal. f_equal. apply existsb_pointwise.
    intros p. unfold is_file. by rewrite F1. }
  exists w1. split; [exact E1|]. split; [exact E1|]. split; [exact F1|].
  assert (Hnonempty : user_home_dir ≠ None -> automation_dir ≠ []).
  { unfold automation_dir. destruct user_home_dir as [h|]; [|done].
    intros _. by destruct h. }
  split_and!.
  - rewrite D1. destruct (match user_home_dir with Some _ => _ | None => _ end); [|done].
    intros q Hq. apply elem_of_union. by left.
  - intros Hh. rewrite Hh in D1. unfold automation_dir. by rewrite Hh.
  - intros Hh Hok. rewrite D1. destruct user_home_dir; [|done]. rewrite Hok.
    apply elem_of_union. right. apply elem_of_list_to_set, prefixes_self. by apply Hnonempty.
  - intros Hh Hbad. destruct user_home_dir; [|done]. rewrite Hbad in D1. split; [done|].
    by apply W1.
  - exists w2. split; [exact E2|]. split; [|exact F2].
    rewrite D2, Hmk, D1.
    destruct (match user_home_dir with Some _ => _ | None => _ end); [|done].
    apply set_eq. intros q. rewrite !elem_of_union. tauto.
Qed.

Lemma provision_keeps_other_files {env : Env} (w : World) (p : path) :
  p ≠ automation_cookies_path -> files (world (provision w)) !! p = files w !! p.
Proof.
  intros Hp. destruct (provision_run w) as (w' & ext & E & _ & Oth & _).
  rewrite E. by apply Oth.
Qed.

(** X11. When the home directory is known, provisioning the automation
    profile never changes a file at or below the user's own Chrome data
    directory: the user's profile is only read. *)
Theorem provision_leaves_user_profile_alone {env : Env}
    (home : path) (rest : path) (w : World) :
  user_home_dir = Some home ->
  user_chrome_dir = (home ++ ["Library"; "Application Support"; "Google"; "Chrome"])%list ∧
  files (world (provision w)) !! (user_chrome_dir ++ rest)%list
    = files w !! (user_chrome_dir ++ rest)%list ∧
  files (world (provision w)) !! user_cookies_path = files w !! user_cookies_path.
Proof.
  intros Hh.
  assert (Hne : ∀ r, (user_chrome_dir ++ r)%list ≠ automation_cookies_path).
  { intros r. unfold user_chrome_dir, automation_cookies_path, automation_cookies_dir,
      automation_dir. rewrite Hh, <- !app_assoc. cbn [app].
    intros Heq%app_inv_head. discriminate. }
  split; [unfold user_chrome_dir; by rewrite Hh|].
  split; [by apply provision_keeps_other_files|].
  by apply provision_keeps_other_files, Hne.
Qed.

Lemma provision_leaves_user_profile_alone_witness :
  @user_chrome_dir chrome_env
    = (["Users"; "me"] ++ ["Library"; "Application Support"; "Google"; "Chrome"])%list ∧
  files (world (@provision chrome_env w_second))
    !! (@user_chrome_dir chrome_env ++ ["Default"; "History"])%list
    = files w_second !! (@user_chrome_dir chrome_env ++ ["Default"; "History"])%list ∧
  files (world (@provision chrome_env w_second)) !! @user_cookies_path chrome_env
    = files w_second !! @user_cookies_path chrome_env.
Proof.
  apply (@provision_leaves_user_profile_alone chrome_env
           ["Users"; "me"] ["Default"; "History"] w_second).
  reflexivity.
Defined.

Lemma existsb_pointwise_in {A} (f g : A -> bool) (l : list A) :
  (∀ x, x ∈ l -> f x = g x) -> existsb f l = existsb g l.
Proof.
  induction l as [|x l IH]; intros Hfg; cbn; [done|].
  rewrite Hfg by (apply elem_of_cons; by left).
  rewrite IH; [done|]. intros y Hy. apply Hfg, elem_of_cons. by right.
Qed.

(** The copy step when the user's database is there and nothing hinders
    the copy: the exact files and directories it leaves. *)
Lemma copyUserCookiesToAutomation_unhindered {env : Env} (w : World) (data : bytes) :
  files w !! user_cookies_path = Some data ->
  copy_unhindered w = true ->
  ∃ w',
    ChromeLaunch.copyUserCookiesToAutomation automation_dir w = (Done tt, w') ∧
    files w' = <[automation_cookies_path :=
                   if decide (user_cookies_path = automation_cookies_path)
                   then [] else data]> (files w) ∧
    dirs w' = dirs w ∪ list_to_set (prefixes automation_cookies_dir) ∧
    last (log w') = Some (Log Info "Successfully copied user cookies to automation profile").
Proof.
  intros Hdata Hcu. unfold copy_unhindered in Hcu.
  apply andb_prop in Hcu as [[[[Hmk Hof]%andb_prop Hcf]%andb_prop Hnd]%andb_prop Hcp].
  apply negb_true_iff in Hof, Hcf, Hnd. apply bool_decide_eq_true in Hcp.
  unfold ChromeLaunch.copyUserCookiesToAutomation. unfold bind at 1.
  rewrite getUserChromeDataDir_run.
  fold user_cookies_path. fold automation_cookies_dir. fold automation_cookies_path.
  unfold bind at 1. rewrite (os_MkdirAll_run _ _ automation_cookies_dir_nonempty).
  set (e0 := match user_home_dir with Some _ => _ | None => _ end).
  change (mkdir_ok (set_log w (log w ++ [e0])) automation_cookies_dir)
    with (mkdir_ok w automation_cookies_dir).
  rewrite Hmk.
  pose (w1 := set_fs (set_log w (log w ++ [e0])) (files w)
                (dirs w ∪ list_to_set (prefixes automation_cookies_dir))).
  change (set_fs (set_log w (log w ++ [e0])) _ _) with w1.
  assert (Hfile : is_file w1 user_cookies_path = true).
  { unfold is_file. subst w1. cbn [files set_fs]. rewrite Hdata. by apply bool_decide_eq_true. }
  assert (Hcan : can_create w1 automation_cookies_path = true).
  { unfold can_create. rewrite Hcf. cbn [negb andb].
    assert (Hd1 : is_dir w1 automation_cookies_path = false).
    { unfold is_dir in *. apply bool_decide_eq_false. subst w1. cbn [dirs set_fs].
      rewrite elem_of_union, elem_of_list_to_set.
      apply bool_decide_eq_false in Hnd.
      pose proof (automation_cookies_path_not_prefix automation_cookies_dir (le_n _)).
      tauto. }
    rewrite Hd1. cbn [negb andb]. apply orb_true_iff. right.
    unfold is_dir. apply bool_decide_eq_true. unfold automation_cookies_path.
    rewrite parent_snoc. subst w1. cbn [dirs set_fs].
    apply elem_of_union. right. apply elem_of_list_to_set.
    apply prefixes_self, automation_cookies_dir_nonempty. }
  assert (Ecopy : ChromeLaunch.copyFile user_cookies_path automation_cookies_path w1 =
            (Done (Ok tt),
             set_fs w1 (<[automation_cookies_path :=
                            if decide (user_cookies_path = automation_cookies_path)
                            then [] else data]> (files w1)) (dirs w1))).
  { rewrite copyFile_opened; [|done|by rewrite Hfile|done].
    destruct (decide (user_cookies_path = automation_cookies_path)) as [Heq|Hne].
    - rewrite Heq, lookup_insert_eq, Hcp. done.
    - rewrite lookup_insert_ne by done. subst w1. cbn [files set_fs].
      by rewrite Hdata, Hcp. }
  assert (Estat : ∃ st, os_Stat user_cookies_path w1 = (Done st, w1) ∧
                        os_IsNotExist st = false).
  { unfold os_Stat. rewrite Hfile. cbn [orb].
    destruct (stat_fault user_cookies_path); by eexists. }
  destruct Estat as (st & Est & Hst).
  unfold bind at 1. rewrite Est, Hst. unfold bind at 1. rewrite Ecopy.
  eexists. split; [reflexivity|]. subst w1. cbn. by rewrite last_snoc.
Qed.

(** X12. When the home directory cannot be determined, the user's and
    the automation profile's cookie database are the same relative path
    [Default/Cookies]; if a file is there and no step is hindered,
    provisioning copies it onto itself: it returns normally, logs the
    success, and leaves the database empty. *)
Theorem provision_without_home_empties_cookies {env : Env} (w : World) (data : bytes) :
  user_home_dir = None ->
  files w !! ["Default"; "Cookies"] = Some data ->
  copy_unhindered w = true ->
  user_cookies_path = ["Default"; "Cookies"] ∧
  automation_cookies_path = ["Default"; "Cookies"] ∧
  outcome (provision w) = Done tt ∧
  files (world (provision w)) !! ["Default"; "Cookies"] = Some [] ∧
  last (log (world (provision w)))
    = Some (Log Info "Successfully copied user cookies to automation profile").
Proof.
  intros Hh Hdata Hcu.
  assert (Hsrc : user_cookies_path = ["Default"; "Cookies"]).
  { unfold user_cookies_path, user_chrome_dir. by rewrite Hh. }
  assert (Hdst : automation_cookies_path = ["Default"; "Cookies"]).
  { unfold automation_cookies_path, automation_cookies_dir, automation_dir. by rewrite Hh. }
  destruct (getAutomationChromeDataDir_run w) as (w1 & e1 & E1 & F1 & Fr1 & D1 & _).
  assert (Hsub : dirs w ⊆ dirs w1) by (by destruct Fr1 as (_&_&_&_&_&?&_)).
  destruct (copy_conditions_stable w w1 F1 Hsub D1) as [Hcu1 _].
  rewrite <- Hcu1 in Hcu. rewrite <- Hsrc, <- F1 in Hdata.
  destruct (copyUserCookiesToAutomation_unhindered w1 data Hdata Hcu)
    as (w2 & E2 & F2 & _ & L2).
  assert (E : provision w = (Done tt, w2)).
  { unfold provision, bind. by rewrite E1, E2. }
  rewrite E. cbn [outcome world fst snd]. split_and!; try done.
  rewrite F2, <- Hdst, lookup_insert_eq.
  rewrite decide_True; [done|]. by rewrite Hsrc, Hdst.
Qed.

Lemma provision_without_home_empties_cookies_witness :
  @user_cookies_path homeless_env = ["Default"; "Cookies"] ∧
  @automation_cookies_path homeless_env = ["Default"; "Cookies"] ∧
  outcome (@provision homeless_env w_relative) = Done tt ∧
  files (world (@provision homeless_env w_relative)) !! ["Default"; "Cookies"] = Some [] ∧
  last (log (world (@provision homeless_env w_relative)))
    = Some (Log Info "Successfully copied user cookies to automation profile").
Proof.
  apply (@provision_without_home_empties_cookies homeless_env w_relative user_data).
  - reflexivity.
  - by vm_compute.
  - by vm_compute.
Defined.

Lemma automation_cookies_path_not_dir_prefix {env : Env} :
  automation_cookies_path ∉ prefixes automation_dir.
Proof.
  apply automation_cookies_path_not_prefix.
  unfold automation_cookies_dir. rewrite length_app. lia.
Qed.

(** Provisioning when the user's database is there and nothing hinders
    the copy: the exact files it leaves, and that the same holds of the
    world it leaves. *)
Lemma provision_unhindered {env : Env} (w : World) (data : bytes) :
  files w !! user_cookies_path = Some data ->
  copy_unhindered w = true ->
  ∃ w',
    provision w = (Done tt, w') ∧
    files w' = <[automation_cookies_path :=
                   if decide (user_cookies_path = automation_cookies_path)
                   then [] else data]> (files w) ∧
    copy_unhindered w' = true.
Proof.
  intros Hdata Hcu.
  destruct (getAutomationChromeDataDir_dirs w) as (w1 & E1 & F1 & _ & D1 & _).
  assert (Hsub : dirs w ⊆ dirs w1).
  { rewrite D1. destruct (match user_home_dir with Some _ => _ | None => _ end); [|done].
    intros q Hq. apply elem_of_union. by left. }
  assert (Hup : ∀ q, q ∈ dirs w1 -> q ∈ dirs w ∨ q ∈ prefixes automation_dir).
  { intros q. rewrite D1.
    destruct (match user_home_dir with Some _ => _ | None => _ end); [|tauto].
    rewrite elem_of_union, elem_of_list_to_set. tauto. }
  destruct (copy_conditions_stable w w1 F1 Hsub Hup) as [Hcu1 _].
  assert (Hcu' := Hcu). rewrite <- Hcu1 in Hcu'.
  assert (Hdata' := Hdata). rewrite <- F1 in Hdata'.
  destruct (copyUserCookiesToAutomation_unhindered w1 data Hdata' Hcu')
    as (w2 & E2 & F2 & D2 & _).
  exists w2. split; [unfold provision, bind; by rewrite E1, E2|].
  split; [by rewrite F2, F1|].
  unfold copy_unhindered in *.
  apply andb_prop in Hcu as [[[[Hmk Hof]%andb_prop Hcf]%andb_prop Hnd]%andb_prop Hcp].
  rewrite Hof, Hcf, Hcp.
  assert (Hmk2 : mkdir_ok w2 automation_cookies_dir = true).
  { rewrite <- Hmk. unfold mkdir_ok. f_equal. f_equal.
    apply existsb_pointwise_in. intros q Hq. unfold is_file.
    rewrite F2, F1, lookup_insert_ne; [done|].
    intros <-. by apply (automation_cookies_path_not_prefix automation_cookies_dir (le_n _)). }
  assert (Hnd2 : is_dir w2 automation_cookies_path = false).
  { apply negb_true_iff in Hnd. unfold is_dir in *.
    apply bool_decide_eq_false. apply bool_decide_eq_false in Hnd.
    rewrite D2, elem_of_union, elem_of_list_to_set.
    intros [[?|?]%Hup|?]; [done| |].
    - by apply automation_cookies_path_not_dir_prefix.
    - by apply (automation_cookies_path_not_prefix automation_cookies_dir (le_n _)). }
  by rewrite Hmk2, Hnd2.
Qed.

(** X13. Provisioning is idempotent on files: when the user's cookie
    database is there and no step of the copy is hindered, a second run
    right after the first returns normally and leaves every file exactly
    as the first run left it. *)
Theorem provision_twice_like_once {env : Env} (w : World) (data : bytes) :
  files w !! user_cookies_path = Some data ->
  copy_unhindered w = true ->
  outcome (provision w) = Done tt ∧
  outcome (provision (world (provision w))) = Done tt ∧
  files (world (provision (world (provision w)))) = files (world (provision w)).
Proof.
  intros Hdata Hcu.
  destruct (provision_unhindered w data Hdata Hcu) as (w1 & E1 & F1 & Hcu1).
  rewrite E1. cbn [outcome world fst snd].
  destruct (decide (user_cookies_path = automation_cookies_path)) as [Heq|Hne].
  - assert (Hd1 : files w1 !! user_cookies_path = Some []).
    { by rewrite F1, Heq, lookup_insert_eq. }
    destruct (provision_unhindered w1 [] Hd1 Hcu1) as (w2 & E2 & F2 & _).
    rewrite E2. cbn [outcome world fst snd]. split_and!; try done.
    rewrite F2, F1. rewrite decide_True by done. by rewrite insert_insert_eq.
  - assert (Hd1 : files w1 !! user_cookies_path = Some data).
    { by rewrite F1, lookup_insert_ne. }
    destruct (provision_unhindered w1 data Hd1 Hcu1) as (w2 & E2 & F2 & _).
    rewrite E2. cbn [outcome world fst snd]. split_and!; try done.
    rewrite F2, F1. rewrite decide_False by done. by rewrite insert_insert_eq.
Qed.

Lemma provision_twice_like_once_witness :
  outcome (@provision chrome_env w_user) = Done tt ∧
  outcome (@provision chrome_env (world (@provision chrome_env w_user))) = Done tt ∧
  files (world (@provision chrome_env (world (@provision chrome_env w_user))))
    = files (world (@provision chrome_env w_user)).
Proof.
  apply (@provision_twice_like_once chrome_env w_user user_data).
  - by vm_compute.
  - by vm_compute.
Defined.

(** X14. The copy step of the attaching version looks for the user's
    cookie database one [Default] too deep, at
    [Chrome/Default/Default/Cookies]: its [getUserChromeDataDir] already
    returns the [Default] profile.  When nothing is at that path, it
    copies nothing, whatever the default profile itself holds: no file
    changes, and when the [Default] directory of the automation profile
    can be made the last log line says that no user cookies were
    found. *)
Theorem attach_copy_looks_below_default_profile {env : Env} (home : path) (w : World) :
  user_home_dir = Some home ->
  files w !! attach_user_cookies_path = None ->
  attach_user_cookies_path ∉ dirs w ->
  stat_fault attach_user_cookies_path = false ->
  attach_user_cookies_path ≠ user_cookies_path ∧
  outcome (ChromeAttach.copyUserCookiesToAutomation automation_dir w) = Done tt ∧
  files (world (ChromeAttach.copyUserCookiesToAutomation automation_dir w)) = files w ∧
  (mkdir_ok w automation_cookies_dir = true ->
   last (log (world (ChromeAttach.copyUserCookiesToAutomation automation_dir w)))
     = Some (Log Info "No user cookies file found to copy")).
Proof.
  intros Hh Hf Hd Hsf.
  assert (Hpath : attach_user_cookies_path =
                  (home ++ ["Library"; "Application Support"; "Google"; "Chrome";
                            "Default"; "Default"; "Cookies"])%list).
  { unfold attach_user_cookies_path. by rewrite Hh. }
  split.
  { rewrite Hpath. unfold user_cookies_path, user_chrome_dir. rewrite Hh, <- app_assoc.
    cbn [app]. intros Heq%app_inv_head. discriminate. }
  assert (Hlen : length automation_cookies_dir < length attach_user_cookies_path).
  { rewrite Hpath. unfold automation_cookies_dir, automation_dir.
    rewrite Hh, !length_app. cbn. lia. }
  assert (E : ∃ w', ChromeAttach.copyUserCookiesToAutomation automation_dir w = (Done tt, w') ∧
                    files w' = files w ∧
                    (mkdir_ok w automation_cookies_dir = true ->
                     last (log w') = Some (Log Info "No user cookies file found to copy"))).
  { unfold ChromeAttach.copyUserCookiesToAutomation. unfold bind at 1.
    unfold ChromeAttach.getUserChromeDataDir, bind at 1, os_UserHomeDir, ret.
    rewrite Hh. unfold bind at 1, logrus_Infof at 1, logrus at 1.
    rewrite <- app_assoc. cbn [app]. rewrite <- Hpath.
    fold automation_cookies_dir. fold automation_cookies_path.
    unfold bind at 1. rewrite (os_MkdirAll_run _ _ automation_cookies_dir_nonempty).
    match goal with |- context [mkdir_ok ?w0 automation_cookies_dir] =>
      change (mkdir_ok w0 automation_cookies_dir) with (mkdir_ok w automation_cookies_dir)
    end.
    destruct (mkdir_ok w automation_cookies_dir).
    - unfold bind at 1, os_Stat, is_file, is_dir. cbn [files dirs set_fs set_log].
      rewrite Hsf, Hf.
      rewrite (bool_decide_false (is_Some None)) by (by intros [? ?]).
      rewrite bool_decide_false.
      + eexists. split; [reflexivity|]. cbn. split; [done|]. intros _. by rewrite last_snoc.
      + rewrite elem_of_union, elem_of_list_to_set.
        intros [?|Hin%prefixes_length]; [done|lia].
    - eexists. split; [reflexivity|]. by cbn. }
  destruct E as (w' & E & F & L). rewrite E. by cbn [outcome world fst snd].
Qed.

Lemma attach_copy_looks_below_default_profile_witness :
  @attach_user_cookies_path chrome_env ≠ @user_cookies_path chrome_env ∧
  outcome (@ChromeAttach.copyUserCookiesToAutomation chrome_env
             (@automation_dir chrome_env) w_user) = Done tt ∧
  files (world (@ChromeAttach.copyUserCookiesToAutomation chrome_env
                  (@automation_dir chrome_env) w_user)) = files w_user ∧
  (@mkdir_ok chrome_env w_user (@automation_cookies_dir chrome_env) = true ->
   last (log (world (@ChromeAttach.copyUserCookiesToAutomation chrome_env
                       (@automation_dir chrome_env) w_user)))
     = Some (Log Info "No user cookies file found to copy")).
Proof.
  apply (@attach_copy_looks_below_default_profile chrome_env ["Users"; "me"] w_user).
  - reflexivity.
  - by vm_compute.
  - apply (proj1 (bool_decide_eq_false _)). by vm_compute.
  - reflexivity.
Defined.

Lemma after_launch_done {env : Env} (l : Launcher) (url : Endpoint) (w : World) :
  rod_connect url = true ->
  stored_cookies = None ∨ set_cookies_ok url = true ->
  ∃ w',
    after_launch l url w = (Done (Some (MkChrome (MkRod url) (Some l))), w') ∧
    procs w' = procs w ∧ conns w' = (conns w ++ [url])%list ∧
    injected w' = (injected w ++ match stored_cookies with
                                 | Some cs => [(url, cs)]
                                 | None => []
                                 end)%list.
Proof.
  intros Hc Hs.
  unfold after_launch, bind at 1, logrus_Infof at 1, logrus at 1.
  unfold bind at 1, MustConnect at 1, bind at 1, Connect at 1.
  rewrite Hc. unfold ret at 1, bind at 1.
  match goal with |- context [ChromeLaunch.loadCookiesForBrowser ?b ?w1] =>
    destruct (loadCookiesForBrowser_run b w1 Hs) as (w2 & E2 & I2 & _ & P2 & C2 & _)
  end.
  rewrite E2. eexists. split; [reflexivity|]. by rewrite P2, C2, I2.
Qed.

(** X15. [NewChromeVisibleBrowser] over the launching version: when a
    Chrome binary is found and launch and connection succeed, it spawns
    exactly one process, from that binary, not headless, on the
    automation profile, with the flags [--no-sandbox],
    [--disable-features=VizDisplayCompositor] and
    [--remote-debugging-port=0]; the handle it returns owns the launcher
    of that process, and the cookies of the cookie file are injected
    over its connection. *)
Theorem NewChromeVisibleBrowser_launches_visible {env : Env} (w : World) :
  Exists (fun p => executable p = true) chromePaths ->
  launch_ok (isolated_launcher false located_chrome automation_dir) = true ->
  rod_connect (OfProc (length (procs w))) = true ->
  stored_cookies = None ∨ set_cookies_ok (OfProc (length (procs w))) = true ->
  ∃ w' pr,
    ChromeLaunch.NewChromeVisibleBrowser w
      = (Done (Some (MkChrome (MkRod (OfProc (length (procs w))))
                              (Some (p_launcher pr)))), w') ∧
    procs w' = (procs w ++ [pr])%list ∧
    l_bin (p_launcher pr) = located_chrome ∧
    executable (l_bin (p_launcher pr)) = true ∧
    l_headless (p_launcher pr) = false ∧
    l_user_data_dir (p_launcher pr) = automation_dir ∧
    l_flags (p_launcher pr) !! "--no-sandbox" = Some [] ∧
    l_flags (p_launcher pr) !! "--disable-features" = Some ["VizDisplayCompositor"] ∧
    l_flags (p_launcher pr) !! "--remote-debugging-port" = Some ["0"] ∧
    conns w' = (conns w ++ [OfProc (length (procs w))])%list ∧
    injected w' = (injected w ++ match stored_cookies with
                                 | Some cs => [(OfProc (length (procs w)), cs)]
                                 | None => []
                                 end)%list.
Proof.
  intros Hex Hl Hc Hs.
  destruct (findChromePath_some w Hex) as (cp & Ecp & _ & Hexe).
  rewrite findChromePath_run in Ecp. fold located_chrome in Ecp. injection Ecp as <-.
  unfold ChromeLaunch.NewChromeVisibleBrowser.
  rewrite (NewChromeBrowser_launch_run false w Hex).
  set (w0 := set_log w (log w ++ [Log Info "Starting Chrome from: %s"])).
  set (L := isolated_launcher false located_chrome automation_dir) in *.
  destruct (provision_run w0) as (w1 & e1 & E1 & (P1 & C1 & I1 & _) & _).
  rewrite E1. cbn [world snd].
  unfold bind at 1, MustLaunch. rewrite Hl.
  subst w0. cbn [procs conns injected set_log] in P1, C1, I1.
  destruct (after_launch_done L (OfProc (length (procs w1)))
              (set_procs w1 (procs w1 ++ [MkProc L (files w1)])))
    as (w2 & E2 & P2 & C2 & I2).
  { by rewrite P1. }
  { by rewrite P1. }
  rewrite E2. cbn [procs conns injected set_procs] in P2, C2, I2.
  rewrite P1 in *. exists w2, (MkProc L (files w1)).
  split; [done|]. rewrite P2, C2, I2, C1, I1. cbn [p_launcher].
  split_and!; done.
Qed.

Lemma NewChromeVisibleBrowser_launches_visible_witness :
  ∃ w' pr,
    @ChromeLaunch.NewChromeVisibleBrowser cookie_env w_user
      = (Done (Some (MkChrome (MkRod (OfProc (length (procs w_user))))
                              (Some (p_launcher pr)))), w') ∧
    procs w' = (procs w_user ++ [pr])%list ∧
    l_bin (p_launcher pr) = @located_chrome cookie_env ∧
    @executable cookie_env (l_bin (p_launcher pr)) = true ∧
    l_headless (p_launcher pr) = false ∧
    l_user_data_dir (p_launcher pr) = @automation_dir cookie_env ∧
    l_flags (p_launcher pr) !! "--no-sandbox" = Some [] ∧
    l_flags (p_launcher pr) !! "--disable-features" = Some ["VizDisplayCompositor"] ∧
    l_flags (p_launcher pr) !! "--remote-debugging-port" = Some ["0"] ∧
    conns w' = (conns w_user ++ [OfProc (length (procs w_user))])%list ∧
    injected w' = (injected w_user ++ match @stored_cookies cookie_env with
                                      | Some cs => [(OfProc (length (procs w_user)), cs)]
                                      | None => []
                                      end)%list.
Proof.
  apply (@NewChromeVisibleBrowser_launches_visible cookie_env w_user).
  - apply Exists_cons_hd. reflexivity.
  - reflexivity.
  - reflexivity.
  - right. reflexivity.
Defined.
